(** * monitor_build.py: the GitHub Actions build monitor

    A shallow embedding of [src/monitor_build.py] and the properties of its
    exit code, its polling loop and its three REST calls.

    The script talks to a remote service, prints, sleeps and finally hands an
    exit code to [sys.exit].  The embedding makes those effects explicit:
    a computation reads the history of everything that happened so far and
    returns its value together with the events it emitted itself.  The remote
    service is a parameter: any function from the history and the request to
    a response, so a statement proved for every [respond] holds for every
    sequence of remote responses.

    Scope of the model.  A response is an HTTP status code with a JSON body
    shaped as the GitHub REST API documents it: [workflows] is a list of
    objects with an integer [id] and a string [path], [workflow_runs] a list
    of objects with a string [status], a [conclusion] that is a string, null
    or absent, and a string [html_url].  A request whose headers the HTTP
    stack refuses raises, as in Python, and the uncaught exception ends the
    process with status 1.  Transport failures inside [requests], bodies of
    another shape and an output stream that cannot encode the printed lines
    are outside the model.  Strings are sequences of bytes:
    the UTF-8 form of Python's [str]. *)

From stdpp Require Import base strings list gmap.
From Stdlib Require Import ZArith DecimalString.

Open Scope string_scope.
Open Scope Z_scope.
Open Scope list_scope.

(** ** Python values and string helpers *)

Module Py.

(** One line feed, Python's ["\n"]. *)
Definition nl : string := String (Ascii.ascii_of_nat 10) EmptyString.

(** [s * n] on strings. *)
Fixpoint str_mul (s : string) (n : nat) : string :=
  match n with
  | O => ""
  | S n' => s +:+ str_mul s n'
  end.

(** [str(i)] for an [int]. *)
Definition str_of_int (i : Z) : string := NilZero.string_of_int (Z.to_int i).

(** [str(x)] (as an f-string field renders it) for [x] an [int] or [None]. *)
Definition str_of_opt_int (x : option Z) : string :=
  match x with
  | Some i => str_of_int i
  | None => "None"
  end.

(** [str(x)] for [x] a string or [None]. *)
Definition str_of_opt (x : option string) : string :=
  match x with
  | Some s => s
  | None => "None"
  end.

(** Truth value of a string or [None]: [None] and [''] are false. *)
Definition truthy_str (x : option string) : bool :=
  match x with
  | Some s => negb (String.eqb s "")
  | None => false
  end.

(** Truth value of an [int] or [None]: [None] and [0] are false. *)
Definition truthy_int (x : option Z) : bool :=
  match x with
  | Some i => negb (i =? 0)
  | None => false
  end.

(** [s.endswith(suffix)]: the last [len(suffix)] characters of [s] are
    compared with [suffix]; a suffix longer than [s] never matches. *)
Definition endswith (s suffix : string) : bool :=
  let n := String.length s in
  let m := String.length suffix in
  (m <=? n)%nat && String.eqb (String.substring (n - m) m s) suffix.

End Py.

(** ** The header check of the HTTP stack

    [requests] and [http.client] refuse a header value before anything is
    sent when it contains a carriage return or a line feed
    ([InvalidHeader], [ValueError]) or a character that Latin-1 cannot
    encode ([UnicodeEncodeError]). *)

Module Header.

(** No byte of [s] is a line feed (10) or a carriage return (13). *)
Fixpoint no_line_break (s : string) : bool :=
  match s with
  | EmptyString => true
  | String c s' =>
      let n := Ascii.nat_of_ascii c in
      negb (n =? 10)%nat && negb (n =? 13)%nat && no_line_break s'
  end.

(** Every character of [s] is at most U+00FF: in UTF-8, a byte below 128,
    or the lead byte 194 or 195 followed by one continuation byte. *)
Fixpoint latin1 (s : string) : bool :=
  match s with
  | EmptyString => true
  | String c s' =>
      let n := Ascii.nat_of_ascii c in
      if (n <? 128)%nat then latin1 s'
      else
        match s' with
        | EmptyString => false
        | String d s'' =>
            let m := Ascii.nat_of_ascii d in
            ((n =? 194) || (n =? 195))%nat &&
            (128 <=? m)%nat && (m <? 192)%nat && latin1 s''
        end
  end.

Definition value_ok (value : string) : bool :=
  no_line_break value && latin1 value.

(** The headers of a request can be sent. *)
Definition sendable (headers : list (string * string)) : bool :=
  forallb (λ header, value_ok header.2) headers.

End Header.

(** ** Data model: the JSON the script reads *)

(** An element of ['workflows']: the keys ['id'] and ['path']. *)
Record workflow := Workflow {
  w_id : Z;
  w_path : string
}.

(** An element of ['workflow_runs']: the keys ['status'], ['conclusion']
    (read with [.get], so [None] stands for both null and absent) and
    ['html_url']. *)
Record run := Run {
  status : string;
  conclusion : option string;
  html_url : string
}.

(** The object [response.json()] returns, restricted to the two keys read. *)
Record json_body := JsonBody {
  workflows : list workflow;
  workflow_runs : list run
}.

Record response := Response {
  status_code : Z;
  json : json_body
}.

Inductive request :=
| GET (url : string) (headers : list (string * string)) (params : list (string * Z))
| POST (url : string) (headers : list (string * string)) (json_data : list (string * string)).

(** What the process does to the outside world, in order. *)
Inductive event :=
| Print (line : string)
| Sleep (seconds : Z)
| Http (req : request) (resp : response).

#[global] Instance workflow_eq_dec : EqDecision workflow.
Proof. solve_decision. Defined.
#[global] Instance run_eq_dec : EqDecision run.
Proof. solve_decision. Defined.
#[global] Instance json_body_eq_dec : EqDecision json_body.
Proof. solve_decision. Defined.
#[global] Instance response_eq_dec : EqDecision response.
Proof. solve_decision. Defined.
#[global] Instance request_eq_dec : EqDecision request.
Proof. solve_decision. Defined.
#[global] Instance event_eq_dec : EqDecision event.
Proof. solve_decision. Defined.

(** ** The effect monad

    A computation receives the history (the events before it started) and
    returns the events it emits and how it ended: with a value, with an
    exception that nothing in the script catches, or cut by the fuel of the
    model, which Python does not have. *)

(** What a refused header raises: [requests.exceptions.InvalidHeader], or
    the [ValueError] or [UnicodeEncodeError] of [http.client].  The script
    catches none of them, so they are not told apart. *)
Inductive exn :=
| InvalidHeader.

Inductive outcome (A : Type) :=
| Returned (a : A)
| Raised (e : exn)
| OutOfFuel.

Arguments Returned {A} a.
Arguments Raised {A} e.
Arguments OutOfFuel {A}.

Definition M (A : Type) : Type := list event → outcome A * list event.

#[global] Instance M_ret : MRet M := λ A a _, (Returned a, []).

#[global] Instance M_bind : MBind M := λ A B f m h,
  match m h with
  | (Returned a, out1) =>
      match f a (h ++ out1) with
      | (b, out2) => (b, out1 ++ out2)
      end
  | (Raised e, out1) => (Raised e, out1)
  | (OutOfFuel, out1) => (OutOfFuel, out1)
  end.

Definition out_of_fuel {A : Type} : M A := λ _, (OutOfFuel, []).

Definition raise {A : Type} (e : exn) : M A := λ _, (Raised e, []).

Definition print (line : string) : M unit := λ _, (Returned (), [Print line]).

Definition time_sleep (seconds : Z) : M unit := λ _, (Returned (), [Sleep seconds]).

#[global] Instance outcome_fmap : FMap outcome := λ A B f o,
  match o with
  | Returned a => Returned (f a)
  | Raised e => Raised e
  | OutOfFuel => OutOfFuel
  end.

(** The value of a computation that returned. *)
Definition returned {A : Type} (o : outcome A) : option A :=
  match o with
  | Returned a => Some a
  | _ => None
  end.

(** The status of the process after [sys.exit(main())]: the value [main]
    returned, or 1 when [main] ended with an uncaught exception. *)
Definition exit_status (o : outcome Z) : option Z :=
  match o with
  | Returned code => Some code
  | Raised _ => Some 1
  | OutOfFuel => None
  end.

(** ** The script *)

Inductive loop_ctl :=
| Continue (previous_status : option string) (check_count : Z)
| Return (result : bool).

Section Script.

(** [os.environ] when the module is loaded. *)
Variable environ : gmap string string.

(** The remote service: its answer to a request, given all that happened
    before. *)
Variable respond : list event → request → response.

(** [requests.get]: the headers are checked first; nothing is sent when
    they are refused. *)
Definition requests_get (url : string) (headers : list (string * string))
    (params : list (string * Z)) : M response :=
  if Header.sendable headers
  then
    λ h, let req := GET url headers params in
         let resp := respond h req in
         (Returned resp, [Http req resp])
  else raise InvalidHeader.

(** [requests.post], likewise. *)
Definition requests_post (url : string) (headers : list (string * string))
    (json_data : list (string * string)) : M response :=
  if Header.sendable headers
  then
    λ h, let req := POST url headers json_data in
         let resp := respond h req in
         (Returned resp, [Http req resp])
  else raise InvalidHeader.

Definition GITHUB_TOKEN : option string := environ !! "GITHUB_PAT".
Definition OWNER : string := "user662122".
Definition REPO : string := "user662122".

Definition API_BASE : string := "https://api.github.com".
Definition HEADERS : list (string * string) :=
  [ ("Authorization", "Bearer " +:+ Py.str_of_opt GITHUB_TOKEN);
    ("Accept", "application/vnd.github+json");
    ("X-GitHub-Api-Version", "2022-11-28") ].

Definition runs_url : string :=
  API_BASE +:+ "/repos/" +:+ OWNER +:+ "/" +:+ REPO +:+ "/actions/runs".

Definition workflows_url : string :=
  API_BASE +:+ "/repos/" +:+ OWNER +:+ "/" +:+ REPO +:+ "/actions/workflows".

Definition dispatches_url (workflow_id : option Z) : string :=
  API_BASE +:+ "/repos/" +:+ OWNER +:+ "/" +:+ REPO +:+ "/actions/workflows/"
    +:+ Py.str_of_opt_int workflow_id +:+ "/dispatches".

(** Get recent workflow runs. *)
Definition get_workflow_runs : M (list run) :=
  resp ← requests_get runs_url HEADERS [("per_page", 5)];
  if bool_decide (status_code resp = 200)
  then mret (workflow_runs (json resp))
  else mret [].

(** The [for workflow in workflows] loop of [get_workflow_id]: [Some id]
    is the [return workflow['id']] inside it, [None] is falling out of the
    loop to the final [return None]. *)
Fixpoint first_workflow (workflow_name : string) (ws : list workflow) : option Z :=
  match ws with
  | [] => None
  | w :: ws' =>
      if Py.endswith (w_path w) workflow_name
      then Some (w_id w)
      else first_workflow workflow_name ws'
  end.

(** Get workflow ID by name. *)
Definition get_workflow_id (workflow_name : string) : M (option Z) :=
  resp ← requests_get workflows_url HEADERS [];
  if bool_decide (status_code resp = 200)
  then mret (first_workflow workflow_name (workflows (json resp)))
  else mret None.

(** Trigger a workflow manually. *)
Definition trigger_workflow (workflow_id : option Z) : M bool :=
  let data := [("ref", "main")] in
  resp ← requests_post (dispatches_url workflow_id) HEADERS data;
  mret (bool_decide (status_code resp = 204)).

Definition max_checks : Z := 60.

(** One pass through the body of the [while] loop of [monitor_latest_run],
    started with the loop's two variables: either the loop goes on with
    their new values or the function returns. *)
Definition monitor_iteration (previous_status : option string) (check_count : Z)
    : M loop_ctl :=
  runs ← get_workflow_runs;
  match runs with
  | [] =>
      print "No workflow runs found";;
      time_sleep 5;;
      mret (Continue previous_status (check_count + 1))
  | latest :: _ =>
      let status := status latest in
      let conclusion := conclusion latest in
      previous_status ←
        (if bool_decide (Some status ≠ previous_status)
         then
           print ("Status: " +:+ status);;
           (if Py.truthy_str conclusion
            then print ("Conclusion: " +:+ Py.str_of_opt conclusion)
            else mret ());;
           mret (Some status)
         else mret previous_status);
      if bool_decide (status = "completed")
      then
        print (Py.nl +:+ Py.str_mul "=" 60);;
        if bool_decide (conclusion = Some "success")
        then
          print "✅ Build SUCCESSFUL!";;
          print (Py.nl +:+ "🔗 View run: " +:+ html_url latest);;
          print "📦 Download artifacts from the Actions tab";;
          mret (Return true)
        else
          print ("❌ Build FAILED with conclusion: " +:+ Py.str_of_opt conclusion);;
          print (Py.nl +:+ "🔗 View logs: " +:+ html_url latest);;
          mret (Return false)
      else
        time_sleep 5;;
        mret (Continue previous_status (check_count + 1))
  end.

(** The [while check_count < max_checks] loop and what follows it.  The
    result is Python's [True], [False] or [None]. *)
Fixpoint monitor_loop (fuel : nat) (previous_status : option string)
    (check_count : Z) : M (option bool) :=
  if bool_decide (check_count < max_checks)
  then
    match fuel with
    | O => out_of_fuel
    | S fuel' =>
        ctl ← monitor_iteration previous_status check_count;
        match ctl with
        | Continue previous_status' check_count' =>
            monitor_loop fuel' previous_status' check_count'
        | Return result => mret (Some result)
        end
    end
  else
    print (Py.nl +:+ "⏱️ Timeout reached");;
    mret None.

(** Monitor the latest workflow run. *)
Definition monitor_latest_run (fuel : nat) : M (option bool) :=
  print (Py.nl +:+ "🔍 Monitoring latest workflow run..." +:+ Py.nl);;
  monitor_loop fuel None 0.

(** What [main] returns for each result of [monitor_latest_run]. *)
Definition report (result : option bool) : M Z :=
  match result with
  | Some true => mret 0
  | Some false => mret 1
  | None =>
      print (Py.nl +:+ "📊 Check build status at:");;
      print ("https://github.com/" +:+ OWNER +:+ "/" +:+ REPO +:+ "/actions");;
      mret 0
  end.

(** The part of [main] between the banner and the monitoring: look the
    workflow up and try to trigger it. *)
Definition resolve_and_trigger : M unit :=
  print (Py.nl +:+ "🔧 Checking for workflow...");;
  workflow_id ← get_workflow_id "build.yml";
  if Py.truthy_int workflow_id
  then
    print ("Found workflow ID: " +:+ Py.str_of_opt_int workflow_id);;
    print (Py.nl +:+ "▶️ Triggering workflow...");;
    triggered ← trigger_workflow workflow_id;
    if (triggered : bool)
    then
      print "✅ Workflow triggered successfully";;
      time_sleep 3
    else
      print "⚠️ Could not trigger workflow (may be already running)"
  else
    print "⚠️ Workflow not found or not yet pushed".

(** [main]; the value it returns is the argument of [sys.exit], the exit
    code of the process. *)
Definition main (fuel : nat) : M Z :=
  if negb (Py.truthy_str GITHUB_TOKEN)
  then
    print "❌ GITHUB_PAT not found";;
    mret 1
  else
    print (Py.str_mul "=" 60);;
    print "🚀 GitHub Actions Build Monitor";;
    print ("Repository: " +:+ OWNER +:+ "/" +:+ REPO);;
    print (Py.str_mul "=" 60);;
    resolve_and_trigger;;
    result ← monitor_latest_run fuel;
    report result.

End Script.

(** ** Reading the event trace *)

(** A request of any kind. *)
Definition is_request (e : event) : bool :=
  match e with
  | Http _ _ => true
  | _ => false
  end.

(** One polling attempt: a GET on the list-runs endpoint. *)
Definition is_poll (e : event) : bool :=
  match e with
  | Http (GET url _ _) _ => bool_decide (url = runs_url)
  | _ => false
  end.

Definition is_sleep (e : event) : bool :=
  match e with
  | Sleep _ => true
  | _ => false
  end.

(** The run a polling attempt lets [monitor_latest_run] see: the first
    element of the run list of a list-runs response the script accepts. *)
Definition observed (e : event) : option run :=
  match e with
  | Http (GET url _ _) resp =>
      if bool_decide (url = runs_url) && bool_decide (status_code resp = 200)
      then head (workflow_runs (json resp))
      else None
  | _ => None
  end.

Definition count (p : event → bool) (out : list event) : nat :=
  length (List.filter p out).

(** The exit code [main] derives from the result of [monitor_latest_run]. *)
Definition exit_code_of (result : option bool) : Z :=
  match result with
  | Some true => 0
  | Some false => 1
  | None => 0
  end.

(** The lines a polling iteration prints about the status of the run it
    sees, given the status remembered from earlier iterations. *)
Definition status_lines (previous_status : option string) (latest : run) : list event :=
  if bool_decide (Some (status latest) ≠ previous_status)
  then Print ("Status: " +:+ status latest) ::
       (if Py.truthy_str (conclusion latest)
        then [Print ("Conclusion: " +:+ Py.str_of_opt (conclusion latest))]
        else [])
  else [].

(** The lines [main] prints after [monitor_latest_run] has returned. *)
Definition report_lines (result : option bool) : list event :=
  match result with
  | Some _ => []
  | None =>
      [Print (Py.nl +:+ "📊 Check build status at:");
       Print ("https://github.com/" +:+ OWNER +:+ "/" +:+ REPO +:+ "/actions")]
  end.

(** The four lines [main] prints first when the credential is there. *)
Definition banner : list event :=
  [Print (Py.str_mul "=" 60);
   Print "🚀 GitHub Actions Build Monitor";
   Print ("Repository: " +:+ OWNER +:+ "/" +:+ REPO);
   Print (Py.str_mul "=" 60)].

Definition monitoring_line : string :=
  Py.nl +:+ "🔍 Monitoring latest workflow run..." +:+ Py.nl.

Definition timeout_line : string := Py.nl +:+ "⏱️ Timeout reached".
Definition missing_credential_line : string := "❌ GITHUB_PAT not found".

(** The three requests the script sends. *)
Definition runs_request (environ : gmap string string) : request :=
  GET runs_url (HEADERS environ) [("per_page", 5)].

Definition workflows_request (environ : gmap string string) : request :=
  GET workflows_url (HEADERS environ) [].

Definition dispatch_request (environ : gmap string string) (workflow_id : option Z)
    : request :=
  POST (dispatches_url workflow_id) (HEADERS environ) [("ref", "main")].

(** The runs [get_workflow_runs] hands to its caller for a response. *)
Definition runs_of (resp : response) : list run :=
  if bool_decide (status_code resp = 200) then workflow_runs (json resp) else [].

(** [s] ends with [suffix], said without reference to the code. *)
Definition ends_with (s suffix : string) : Prop := ∃ p, s = p +:+ suffix.

(** No polling request of the trace showed a completed run. *)
Definition no_completed_run (out : list event) : bool :=
  forallb (λ e, match observed e with
                | Some r => negb (String.eqb (status r) "completed")
                | None => true
                end) out.

(** The status last seen in the events [out], or [previous_status] when no
    polling request of [out] showed a run. *)
Definition last_status_from (previous_status : option string) (out : list event)
    : option string :=
  foldl (λ acc e, match observed e with
                  | Some r => Some (status r)
                  | None => acc
                  end) previous_status out.

Definition last_status : list event → option string := last_status_from None.

(** ** Concrete environments and remotes, for the examples *)

Module Scenario.

Definition with_token : gmap string string := {[ "GITHUB_PAT" := "ghp_example" ]}.
Definition empty_token : gmap string string := {[ "GITHUB_PAT" := "" ]}.

Definition two_workflows : list workflow :=
  [Workflow 3 ".github/workflows/test.yml"; Workflow 7 ".github/workflows/build.yml"].

Definition run_url : string := "https://github.com/user662122/user662122/actions/runs/1".

(** A remote whose every response has the given status code and body. *)
Definition always (code : Z) (ws : list workflow) (rs : list run)
    (h : list event) (req : request) : response :=
  Response code (JsonBody ws rs).

Definition succeeded : run := Run "completed" (Some "success") run_url.
Definition no_conclusion : run := Run "completed" None run_url.
Definition in_progress : run := Run "in_progress" None run_url.

(** A response with status 201 Created that carries data. *)
Definition created : response :=
  Response 201 (JsonBody two_workflows [in_progress]).

(** What [monitor_latest_run] emits when the run stays in progress. *)
Definition stuck_trace : list event :=
  (monitor_latest_run with_token (always 200 [] [in_progress]) 60 []).2.

End Scenario.

(** ** More ways to read the trace *)

(** A dispatch: the only POST the script sends. *)
Definition is_dispatch (e : event) : bool :=
  match e with
  | Http (POST _ _ _) _ => true
  | _ => false
  end.

Definition url_of (req : request) : string :=
  match req with
  | GET url _ _ => url
  | POST url _ _ => url
  end.

Definition headers_of (req : request) : list (string * string) :=
  match req with
  | GET _ headers _ => headers
  | POST _ headers _ => headers
  end.

(** The seconds the process spends in [time.sleep]. *)
Definition sleep_seconds (out : list event) : Z :=
  foldr (λ e acc, match e with
                  | Sleep seconds => seconds + acc
                  | _ => acc
                  end) 0 out.

(** The common start of the three URLs. *)
Definition actions_api : string :=
  API_BASE +:+ "/repos/" +:+ OWNER +:+ "/" +:+ REPO +:+ "/actions/".

Definition checking_line : string := Py.nl +:+ "🔧 Checking for workflow...".
Definition not_found_line : string := "⚠️ Workflow not found or not yet pushed".
Definition triggered_line : string := "✅ Workflow triggered successfully".
Definition not_triggered_line : string :=
  "⚠️ Could not trigger workflow (may be already running)".
Definition no_runs_line : string := "No workflow runs found".

(** The id [get_workflow_id] returns for a response. *)
Definition workflow_id_of (workflow_name : string) (resp : response) : option Z :=
  if bool_decide (status_code resp = 200)
  then first_workflow workflow_name (workflows (json resp))
  else None.

(** The value of [workflow_id] in [main] started after the history [h]. *)
Definition found_workflow (environ : gmap string string)
    (respond : list event → request → response) (h : list event) : option Z :=
  workflow_id_of "build.yml"
    (respond (h ++ banner ++ [Print checking_line]) (workflows_request environ)).

(** What [main] emits after the list-workflows request, for the id found
    and the response to the dispatch, if one is sent. *)
Definition lookup_tail (environ : gmap string string) (found : option Z)
    (dispatch_resp : response) : list event :=
  if Py.truthy_int found
  then
    [Print ("Found workflow ID: " +:+ Py.str_of_opt_int found);
     Print (Py.nl +:+ "▶️ Triggering workflow...");
     Http (dispatch_request environ found) dispatch_resp] ++
    (if bool_decide (status_code dispatch_resp = 204)
     then [Print triggered_line; Sleep 3]
     else [Print not_triggered_line])
  else [Print not_found_line].

(** The shape of an event of the monitoring: a print, a sleep of five
    seconds, or a list-runs request. *)
Definition monitoring_event (environ : gmap string string) (e : event) : Prop :=
  match e with
  | Print _ => True
  | Sleep seconds => seconds = 5
  | Http req _ => req = runs_request environ
  end.

Module Remote.

(** A remote that answers the list-workflows request with status 200 and the
    given workflows, the dispatch with [dispatch_code], and every list-runs
    request with status 200 and the given runs. *)
Definition fixed (ws : list workflow) (dispatch_code : Z) (rs : list run)
    (h : list event) (req : request) : response :=
  match req with
  | GET _ _ _ => Response 200 (JsonBody ws rs)
  | POST _ _ _ => Response dispatch_code (JsonBody [] [])
  end.

(** A remote whose list-runs answers depend on the number of polls before:
    no run on the first, a queued run on the second, the given run from the
    third on. *)
Definition warming_up (final : run) (h : list event) (req : request) : response :=
  match count is_poll h with
  | O => Response 200 (JsonBody [] [])
  | S O => Response 200 (JsonBody [] [Run "queued" None Scenario.run_url])
  | _ => Response 200 (JsonBody [] [final])
  end.

Definition zero_id_workflow : list workflow :=
  [Workflow 0 ".github/workflows/build.yml"].

Definition failed : run := Run "completed" (Some "failure") Scenario.run_url.
Definition blank_conclusion : run := Run "completed" (Some "") Scenario.run_url.

(** A credential that ends with a line feed, as a file read without
    stripping leaves it. *)
Definition line_feed_token : gmap string string :=
  {[ "GITHUB_PAT" := "ghp_example" +:+ Py.nl ]}.

(** A response with status 201 Created whose first workflow is the one
    looked for. *)
Definition created_listing : response :=
  Response 201 (JsonBody [Workflow 7 ".github/workflows/build.yml"] []).

End Remote.

(** ** Strings *)

Lemma string_app_cons c s t : String c s +:+ t = String c (s +:+ t).
Proof. reflexivity. Qed.

Lemma string_app_length s t :
  String.length (s +:+ t) = (String.length s + String.length t)%nat.
Proof. induction s as [|c s IH]; [done|]. rewrite string_app_cons. cbn. by rewrite IH. Qed.

Lemma substring_whole s : String.substring 0 (String.length s) s = s.
Proof. induction s as [|c s IH]; [done|]. cbn. by rewrite IH. Qed.

Lemma substring_app_r p s :
  String.substring (String.length p) (String.length s) (p +:+ s) = s.
Proof. induction p as [|c p IH]; [apply substring_whole|]. rewrite string_app_cons. cbn. exact IH. Qed.

Lemma substring_split s : ∀ k, (k ≤ String.length s)%nat →
  s = String.substring 0 k s +:+ String.substring k (String.length s - k) s.
Proof.
  induction s as [|c s IH]; intros k Hk.
  - cbn in Hk. assert (k = 0%nat) as -> by lia. done.
  - destruct k as [|k].
    + rewrite Nat.sub_0_r, substring_whole. done.
    + cbn in Hk. cbn. rewrite string_app_cons. f_equal. apply IH. lia.
Qed.

Lemma endswith_spec s suffix :
  Py.endswith s suffix = true ↔ ∃ p, s = p +:+ suffix.
Proof.
  unfold Py.endswith. rewrite andb_true_iff, Nat.leb_le, String.eqb_eq. split.
  - intros [Hle Heq]. exists (String.substring 0 (String.length s - String.length suffix) s).
    rewrite <- Heq at 2.
    rewrite (substring_split s (String.length s - String.length suffix)) at 1 by lia.
    do 2 f_equal. lia.
  - intros [p ->]. rewrite string_app_length. split; [lia|].
    replace (String.length p + String.length suffix - String.length suffix)%nat
      with (String.length p) by lia.
    apply substring_app_r.
Qed.

Lemma ends_with_iff s suffix : ends_with s suffix ↔ Py.endswith s suffix = true.
Proof. unfold ends_with. by rewrite endswith_spec. Qed.

Lemma not_ends_with s suffix : ¬ ends_with s suffix → Py.endswith s suffix = false.
Proof.
  intros Hn. apply not_true_is_false. intros H. apply Hn. by apply endswith_spec.
Qed.

(** ** The workflow search *)

Lemma first_workflow_match name before w after :
  Py.endswith (w_path w) name = true →
  Forall (λ w', Py.endswith (w_path w') name = false) before →
  first_workflow name (before ++ w :: after) = Some (w_id w).
Proof.
  intros Hw. induction 1 as [|w' before Hw' _ IH]; cbn.
  - by rewrite Hw.
  - by rewrite Hw'.
Qed.

Lemma first_workflow_none name ws :
  Forall (λ w, Py.endswith (w_path w) name = false) ws →
  first_workflow name ws = None.
Proof. induction 1 as [|w ws Hw _ IH]; cbn; [done|]. by rewrite Hw. Qed.

(** ** Basic facts about the monad and about reading traces *)

Lemma count_app p (l1 l2 : list event) :
  count p (l1 ++ l2) = (count p l1 + count p l2)%nat.
Proof. unfold count. by rewrite List.filter_app, length_app. Qed.

Lemma count_cons p e (l : list event) :
  count p (e :: l) = ((if p e then 1 else 0) + count p l)%nat.
Proof. unfold count. simpl. by destruct (p e). Qed.

Lemma count_none p (l : list event) :
  Forall (λ e, p e = false) l → count p l = 0%nat.
Proof.
  induction 1 as [|e l He _ IH]; [done|].
  rewrite count_cons, He, IH. done.
Qed.

Lemma not_request_not_poll e : is_request e = false → is_poll e = false.
Proof. by destruct e. Qed.

Lemma not_request_not_observed e : is_request e = false → observed e = None.
Proof. by destruct e. Qed.

Lemma bind_run {A B} (m : M A) (f : A → M B) (h : list event) :
  (m ≫= f) h =
  match m h with
  | (Returned a, out1) => ((f a (h ++ out1)).1, out1 ++ (f a (h ++ out1)).2)
  | (Raised e, out1) => (Raised e, out1)
  | (OutOfFuel, out1) => (OutOfFuel, out1)
  end.
Proof.
  unfold mbind, M_bind. destruct (m h) as [[a|e|] out1]; [|done..].
  by destruct (f a (h ++ out1)).
Qed.

Ltac run_m :=
  repeat first
    [ rewrite bind_run
    | progress unfold mret, M_ret, print, time_sleep, out_of_fuel, raise
    | progress cbn [fst snd app] ].

Lemma no_completed_run_spec out :
  no_completed_run out = true →
  ∀ e r, e ∈ out → observed e = Some r → status r ≠ "completed".
Proof.
  unfold no_completed_run. rewrite forallb_forall.
  intros Hall e r He Hobs Hst. apply list_elem_of_In in He. apply Hall in He.
  rewrite Hobs, Hst in He. done.
Qed.

Lemma last_status_from_quiet previous_status out :
  Forall (λ e, observed e = None) out →
  last_status_from previous_status out = previous_status.
Proof.
  unfold last_status_from. induction 1 as [|e out He _ IH]; [done|].
  cbn [foldl]. by rewrite He.
Qed.

Lemma last_status_from_app previous_status out1 out2 :
  last_status_from previous_status (out1 ++ out2) =
  last_status_from (last_status_from previous_status out1) out2.
Proof. apply foldl_app. Qed.

Lemma split_after_quiet (pre out2 before after : list event) e :
  before ++ e :: after = pre ++ out2 →
  Forall (λ e', observed e' = None) pre →
  is_Some (observed e) →
  ∃ before', before = pre ++ before' ∧ out2 = before' ++ e :: after.
Proof.
  intros Heq Hpre He. revert before Heq.
  induction Hpre as [|x pre Hx _ IH]; intros before Heq.
  - by exists before.
  - destruct before as [|y before]; cbn in Heq.
    + injection Heq as -> _. rewrite Hx in He. by destruct He.
    + injection Heq as -> Heq. destruct (IH _ Heq) as (before' & -> & ->).
      by exists before'.
Qed.

(** ** The script, function by function *)

Section Facts.

Variable environ : gmap string string.
Variable respond : list event → request → response.

(** The credential makes a header the HTTP stack accepts. *)
Hypothesis Hsend : Header.sendable (HEADERS environ) = true.

Local Abbreviation poll_request := (GET runs_url (HEADERS environ) [("per_page", 5)]).

Lemma get_workflow_runs_run h :
  get_workflow_runs environ respond h =
  (Returned (runs_of (respond h poll_request)),
   [Http poll_request (respond h poll_request)]).
Proof.
  unfold get_workflow_runs, runs_of. rewrite bind_run.
  unfold requests_get. rewrite Hsend. cbn [fst snd].
  by destruct (bool_decide _).
Qed.

Lemma monitor_iteration_run previous_status check_count h :
  let resp := respond h poll_request in
  monitor_iteration environ respond previous_status check_count h =
  match runs_of resp with
  | [] =>
      (Returned (Continue previous_status (check_count + 1)),
       [Http poll_request resp; Print "No workflow runs found"; Sleep 5])
  | latest :: _ =>
      if bool_decide (status latest = "completed")
      then
        if bool_decide (conclusion latest = Some "success")
        then
          (Returned (Return true),
           Http poll_request resp :: status_lines previous_status latest ++
           [Print (Py.nl +:+ Py.str_mul "=" 60);
            Print "✅ Build SUCCESSFUL!";
            Print (Py.nl +:+ "🔗 View run: " +:+ html_url latest);
            Print "📦 Download artifacts from the Actions tab"])
        else
          (Returned (Return false),
           Http poll_request resp :: status_lines previous_status latest ++
           [Print (Py.nl +:+ Py.str_mul "=" 60);
            Print ("❌ Build FAILED with conclusion: " +:+ Py.str_of_opt (conclusion latest));
            Print (Py.nl +:+ "🔗 View logs: " +:+ html_url latest)])
      else
        (Returned (Continue
                 (if bool_decide (Some (status latest) ≠ previous_status)
                  then Some (status latest) else previous_status)
                 (check_count + 1)),
         Http poll_request resp :: status_lines previous_status latest ++ [Sleep 5])
  end.
Proof.
  intros resp. unfold monitor_iteration. rewrite bind_run, get_workflow_runs_run.
  cbn [fst snd]. fold resp. destruct (runs_of resp) as [|latest rest].
  - by run_m.
  - unfold status_lines.
    destruct (bool_decide (Some (status latest) ≠ previous_status));
      destruct (Py.truthy_str (conclusion latest));
      destruct (bool_decide (status latest = "completed"));
      destruct (bool_decide (conclusion latest = Some "success"));
      by run_m.
Qed.

Lemma observed_poll resp : observed (Http poll_request resp) = head (runs_of resp).
Proof.
  unfold observed, runs_of. rewrite bool_decide_eq_true_2 by done. cbn [andb].
  by destruct (bool_decide _).
Qed.

Lemma status_lines_prints previous_status latest :
  Forall (λ e, ∃ line, e = Print line) (status_lines previous_status latest).
Proof.
  unfold status_lines.
  destruct (bool_decide _); [|constructor].
  destruct (Py.truthy_str _); repeat constructor; eauto.
Qed.

(** What one iteration does, read off [monitor_iteration_run]: one polling
    request first, then no further request; the loop is left exactly when
    the first run of the list is completed, and goes on after one sleep
    with the counter advanced by one otherwise. *)
Lemma monitor_iteration_cases previous_status check_count h :
  let resp := respond h poll_request in
  ∃ ctl rest,
    monitor_iteration environ respond previous_status check_count h
      = (Returned ctl, Http poll_request resp :: rest) ∧
    Forall (λ e, is_request e = false) rest ∧
    match head (runs_of resp) with
    | Some latest =>
        if bool_decide (status latest = "completed")
        then ctl = Return (bool_decide (conclusion latest = Some "success")) ∧
             count is_sleep rest = 0%nat
        else (∃ p, ctl = Continue p (check_count + 1)) ∧
             count is_sleep rest = 1%nat
    | None =>
        ctl = Continue previous_status (check_count + 1) ∧
        count is_sleep rest = 1%nat
    end.
Proof.
  intros resp. rewrite monitor_iteration_run. fold resp.
  assert (Hlines : ∀ latest tl,
    Forall (λ e, is_request e = false) tl →
    Forall (λ e, is_request e = false) (status_lines previous_status latest ++ tl)).
  { intros latest tl Htl. apply Forall_app. split; [|done].
    eapply Forall_impl; [apply status_lines_prints|].
    by intros e [line ->]. }
  assert (Hsleep : ∀ latest tl,
    count is_sleep (status_lines previous_status latest ++ tl) = count is_sleep tl).
  { intros latest tl. rewrite count_app, count_none; [done|].
    eapply Forall_impl; [apply status_lines_prints|].
    by intros e [line ->]. }
  destruct (runs_of resp) as [|latest rest]; cbn [head].
  - eexists _, _. split; [done|]. split; [by repeat constructor|done].
  - destruct (bool_decide (status latest = "completed")).
    + destruct (bool_decide (conclusion latest = Some "success"));
        eexists _, _; (split; [done|]);
        (split; [apply Hlines; by repeat constructor|]);
        (split; [done|]); by rewrite Hsleep.
    + eexists _, _. split; [done|].
      split; [apply Hlines; by repeat constructor|].
      split; [by eexists|]. by rewrite Hsleep.
Qed.

Lemma monitor_loop_step fuel previous_status check_count h :
  check_count < max_checks →
  monitor_loop environ respond (S fuel) previous_status check_count h =
  match monitor_iteration environ respond previous_status check_count h with
  | (Returned (Continue p c), out1) =>
      let r := monitor_loop environ respond fuel p c (h ++ out1) in
      (r.1, out1 ++ r.2)
  | (Returned (Return b), out1) => (Returned (Some b), out1)
  | (Raised e, out1) => (Raised e, out1)
  | (OutOfFuel, out1) => (OutOfFuel, out1)
  end.
Proof.
  intros Hlt. cbn [monitor_loop]. rewrite bool_decide_eq_true_2 by done.
  rewrite bind_run.
  destruct (monitor_iteration _ _ _ _ _) as [[[p c|b]|e|] out1]; cbn [fst snd];
    [done| |done..].
  unfold mret, M_ret. cbn [fst snd]. by rewrite app_nil_r.
Qed.

Lemma monitor_loop_exit fuel previous_status check_count h :
  ¬ check_count < max_checks →
  monitor_loop environ respond fuel previous_status check_count h =
  (Returned None, [Print timeout_line]).
Proof.
  intros Hge. destruct fuel; cbn [monitor_loop];
    rewrite bool_decide_eq_false_2 by done; by run_m.
Qed.

(** With enough fuel the loop returns, after at most [max_checks -
    check_count] polling requests and as many sleeps. *)
Lemma monitor_loop_bounded fuel : ∀ previous_status check_count h,
  (Z.to_nat (max_checks - check_count) ≤ fuel)%nat →
  ∃ result out,
    monitor_loop environ respond fuel previous_status check_count h
      = (Returned result, out) ∧
    (count is_poll out ≤ Z.to_nat (max_checks - check_count))%nat ∧
    (count is_sleep out ≤ Z.to_nat (max_checks - check_count))%nat ∧
    count is_request out = count is_poll out.
Proof.
  induction fuel as [|fuel IH]; intros previous_status check_count h Hfuel.
  - rewrite monitor_loop_exit by lia.
    eexists _, _. split; [done|]. cbn. lia.
  - destruct (decide (check_count < max_checks)) as [Hlt|Hge].
    2:{ rewrite monitor_loop_exit by done.
        eexists _, _. split; [done|]. cbn. lia. }
    rewrite monitor_loop_step by done.
    destruct (monitor_iteration_cases previous_status check_count h)
      as (ctl & rest & -> & Hrest & Hctl).
    assert (Hpoll : count is_poll rest = 0%nat).
    { apply count_none. eapply Forall_impl; [exact Hrest|].
      apply not_request_not_poll. }
    assert (Hreq : count is_request rest = 0%nat) by by apply count_none.
    assert (Hsl : (count is_sleep rest ≤ 1)%nat).
    { destruct (head _) as [latest|]; [destruct (bool_decide _)|]; lia. }
    destruct ctl as [p c|b].
    + assert (c = check_count + 1) as ->.
      { destruct (head _) as [latest|]; [destruct (bool_decide _)|].
        - by destruct Hctl.
        - destruct Hctl as [[p' [= _ ->]] _]. done.
        - destruct Hctl as [[= _ ->] _]. done. }
      destruct (IH p (check_count + 1)
                  (h ++ Http poll_request (respond h poll_request) :: rest))
        as (result & out & -> & Hp & Hs & Hr); [lia|].
      eexists _, _. split; [done|]. cbn [fst snd].
      rewrite !count_app, !count_cons, Hpoll, Hreq. cbn [is_poll is_sleep is_request].
      rewrite bool_decide_eq_true_2 by done. lia.
    + eexists _, _. split; [done|].
      rewrite !count_cons, Hpoll, Hreq. cbn [is_poll is_sleep is_request].
      rewrite bool_decide_eq_true_2 by done. lia.
Qed.

(** Whatever the fuel: once a polling request shows a completed run, the
    loop has returned, with [True] exactly for the conclusion 'success'. *)
Lemma monitor_loop_completed fuel : ∀ previous_status check_count h result out,
  monitor_loop environ respond fuel previous_status check_count h = (result, out) →
  ∀ e r, e ∈ out → observed e = Some r → status r = "completed" →
  result = Returned (Some (bool_decide (conclusion r = Some "success"))).
Proof.
  induction fuel as [|fuel IH];
    intros previous_status check_count h result out Hrun e r He Hobs Hst.
  - cbn [monitor_loop] in Hrun. destruct (bool_decide _).
    + injection Hrun as <- <-. by apply elem_of_nil in He.
    + revert Hrun. run_m. intros [= <- <-].
      apply list_elem_of_singleton in He as ->. done.
  - destruct (decide (check_count < max_checks)) as [Hlt|Hge].
    2:{ rewrite monitor_loop_exit in Hrun by done. injection Hrun as <- <-.
        apply list_elem_of_singleton in He as ->. done. }
    rewrite monitor_loop_step in Hrun by done.
    destruct (monitor_iteration_cases previous_status check_count h)
      as (ctl & rest & Hit & Hrest & Hctl).
    rewrite Hit in Hrun.
    assert (Hnot : ∀ e', e' ∈ rest → observed e' = None).
    { intros e' He'. apply not_request_not_observed.
      by eapply Forall_forall in Hrest. }
    destruct ctl as [p c|b].
    + cbn zeta in Hrun. injection Hrun as <- <-.
      rewrite app_comm_cons in He. apply elem_of_app in He as [He|He].
      * apply elem_of_cons in He as [->|He].
        -- rewrite observed_poll in Hobs. rewrite Hobs in Hctl.
           rewrite bool_decide_eq_true_2 in Hctl by done. by destruct Hctl.
        -- apply Hnot in He. congruence.
      * eapply IH; [|done..]. apply surjective_pairing.
    + injection Hrun as <- <-.
      apply elem_of_cons in He as [->|He].
      * rewrite observed_poll in Hobs. rewrite Hobs in Hctl.
        rewrite bool_decide_eq_true_2 in Hctl by done.
        destruct Hctl as [[= ->] _]. done.
      * apply Hnot in He. congruence.
Qed.

(** With enough fuel: when no polling request shows a completed run, the
    loop uses up all its attempts, prints the timeout line and returns
    [None]. *)
Lemma monitor_loop_timeout fuel : ∀ previous_status check_count h result out,
  (Z.to_nat (max_checks - check_count) ≤ fuel)%nat →
  monitor_loop environ respond fuel previous_status check_count h = (result, out) →
  (∀ e r, e ∈ out → observed e = Some r → status r ≠ "completed") →
  result = Returned None ∧
  Print timeout_line ∈ out ∧
  count is_poll out = Z.to_nat (max_checks - check_count) ∧
  count is_sleep out = Z.to_nat (max_checks - check_count).
Proof.
  induction fuel as [|fuel IH];
    intros previous_status check_count h result out Hfuel Hrun Hnone.
  - rewrite monitor_loop_exit in Hrun by lia. injection Hrun as <- <-.
    split; [done|]. split; [by apply list_elem_of_singleton|]. cbn. lia.
  - destruct (decide (check_count < max_checks)) as [Hlt|Hge].
    2:{ rewrite monitor_loop_exit in Hrun by done. injection Hrun as <- <-.
        split; [done|]. split; [by apply list_elem_of_singleton|]. cbn. lia. }
    rewrite monitor_loop_step in Hrun by done.
    destruct (monitor_iteration_cases previous_status check_count h)
      as (ctl & rest & Hit & Hrest & Hctl).
    rewrite Hit in Hrun.
    assert (Hpoll : count is_poll rest = 0%nat).
    { apply count_none. eapply Forall_impl; [exact Hrest|].
      apply not_request_not_poll. }
    assert (Hhead : ∀ latest,
      head (runs_of (respond h poll_request)) = Some latest →
      status latest ≠ "completed").
    { intros latest Hl. eapply (Hnone (Http poll_request (respond h poll_request))).
      - destruct ctl; injection Hrun as _ <-; apply elem_of_cons; by left.
      - by rewrite observed_poll. }
    assert (Hcont : (∃ p, ctl = Continue p (check_count + 1)) ∧
                    count is_sleep rest = 1%nat).
    { destruct (head _) as [latest|] eqn:Hl.
      - rewrite bool_decide_eq_false_2 in Hctl by by apply Hhead. done.
      - destruct Hctl as [-> ?]. eauto. }
    destruct Hcont as [[p ->] Hsl].
    cbn zeta in Hrun. injection Hrun as <- <-.
    edestruct (IH p (check_count + 1)) as (Hres & Hin & Hp & Hs);
      [|apply surjective_pairing| |].
    + lia.
    + intros e r He. apply Hnone. rewrite app_comm_cons.
      apply elem_of_app. right. exact He.
    + split; [done|]. split.
      { rewrite app_comm_cons. apply elem_of_app. right. exact Hin. }
      rewrite app_comm_cons, !count_app, !count_cons, Hpoll, Hsl, Hp, Hs.
      cbn [is_poll is_sleep]. rewrite bool_decide_eq_true_2 by done. lia.
Qed.

Lemma monitor_latest_run_run fuel h :
  monitor_latest_run environ respond fuel h =
  let r := monitor_loop environ respond fuel None 0 (h ++ [Print monitoring_line]) in
  (r.1, Print monitoring_line :: r.2).
Proof. unfold monitor_latest_run. by run_m. Qed.

Lemma report_run result h :
  report result h = (Returned (exit_code_of result), report_lines result).
Proof. destruct result as [[|]|]; unfold report; by run_m. Qed.

(** Looking the workflow up and triggering it always comes back, and none
    of its requests is a polling request. *)
Lemma resolve_and_trigger_cases h :
  ∃ out,
    resolve_and_trigger environ respond h = (Returned (), out) ∧
    Forall (λ e, is_poll e = false) out ∧
    Forall (λ e, observed e = None) out.
Proof.
  unfold resolve_and_trigger, get_workflow_id, trigger_workflow,
    requests_get, requests_post. rewrite Hsend.
  run_m. case_bool_decide; run_m.
  - destruct (Py.truthy_int _); run_m.
    + case_bool_decide; run_m; eexists; (split; [done|]);
        split; by repeat constructor.
    + eexists; (split; [done|]); split; by repeat constructor.
  - eexists; (split; [done|]); split; by repeat constructor.
Qed.

(** [main] with a credential: the banner, the workflow lookup and trigger,
    then the monitoring, whose result alone fixes the exit code. *)
Lemma main_run fuel h :
  Py.truthy_str (GITHUB_TOKEN environ) = true →
  let pre := banner ++ (resolve_and_trigger environ respond (h ++ banner)).2 in
  let r := monitor_latest_run environ respond fuel (h ++ pre) in
  main environ respond fuel h =
  (exit_code_of <$> r.1,
   pre ++ r.2 ++ from_option report_lines [] (returned r.1)).
Proof.
  intros Htok pre r. unfold main. rewrite Htok. cbn [negb].
  destruct (resolve_and_trigger_cases (h ++ banner)) as (out & Hout & _).
  subst r pre. rewrite Hout. cbn [snd].
  run_m.
  replace ((((h ++ [Print (Py.str_mul "=" 60)]) ++
              [Print "🚀 GitHub Actions Build Monitor"]) ++
             [Print ("Repository: " +:+ OWNER +:+ "/" +:+ REPO)]) ++
            [Print (Py.str_mul "=" 60)]) with (h ++ banner)
    by (unfold banner; by rewrite <- !app_assoc).
  rewrite Hout. run_m.
  rewrite <- (app_assoc h banner out).
  destruct (monitor_latest_run environ respond fuel (h ++ banner ++ out))
    as [[result|e|] mout]; run_m.
  - rewrite report_run. cbn [fst snd fmap outcome_fmap returned from_option banner app].
    done.
  - cbn [fmap outcome_fmap returned from_option banner app].
    by rewrite app_nil_r.
  - cbn [fmap outcome_fmap returned from_option banner app].
    by rewrite app_nil_r.
Qed.

(** The event that follows the polling request of an iteration, and the
    status the iteration hands to the next one. *)
Lemma monitor_iteration_head previous_status check_count h :
  previous_status ≠ Some "completed" →
  let resp := respond h poll_request in
  ∃ ctl first rest,
    monitor_iteration environ respond previous_status check_count h
      = (Returned ctl, Http poll_request resp :: first :: rest) ∧
    Forall (λ e, observed e = None) (first :: rest) ∧
    (∀ p c, ctl = Continue p c →
       p = last_status_from previous_status [Http poll_request resp] ∧
       p ≠ Some "completed") ∧
    (∀ latest, head (runs_of resp) = Some latest →
       (first = Print ("Status: " +:+ status latest)
          ↔ previous_status ≠ Some (status latest)) ∧
       (previous_status = Some (status latest) → first = Sleep 5)).
Proof.
  intros Hinv resp. rewrite monitor_iteration_run. fold resp.
  unfold last_status_from. cbn [foldl]. rewrite observed_poll.
  destruct (runs_of resp) as [|latest rest]; cbn [head].
  { eexists _, _, _. split; [done|]. split; [by repeat constructor|].
    split; [|done]. by intros p c [= <- _]. }
  unfold status_lines.
  destruct (decide (previous_status = Some (status latest))) as [Heq|Hch].
  - assert (Hnc : status latest ≠ "completed") by congruence.
    rewrite (bool_decide_eq_false_2 (Some _ ≠ _)) by naive_solver.
    rewrite (bool_decide_eq_false_2 (status latest = _)) by done.
    eexists _, _, _. split; [done|]. split; [by repeat constructor|].
    split; [by intros p c [= <- _]|].
    intros latest' [= <-]. split; [|done]. split; [done|]. congruence.
  - rewrite (bool_decide_eq_true_2 (Some _ ≠ _)) by naive_solver.
    assert (Hfirst : ∀ latest', Some latest = Some latest' →
      (Print ("Status: " +:+ status latest) = Print ("Status: " +:+ status latest')
         ↔ previous_status ≠ Some (status latest')) ∧
      (previous_status = Some (status latest') →
       Print ("Status: " +:+ status latest) = Sleep 5)).
    { intros latest' [= <-]. split; [done|]. congruence. }
    destruct (Py.truthy_str (conclusion latest)); repeat case_bool_decide;
      cbn [app]; eexists _, _, _; (split; [done|]);
      (split; [by repeat constructor|]); (split; [|exact Hfirst]);
      intros p c [= <- _]; (split; [done|]); congruence.
Qed.

Lemma monitor_loop_status_lines fuel : ∀ previous_status check_count h,
  previous_status ≠ Some "completed" →
  ∀ before e after latest,
    (monitor_loop environ respond fuel previous_status check_count h).2
      = before ++ e :: after →
    observed e = Some latest →
    (head after = Some (Print ("Status: " +:+ status latest))
       ↔ last_status_from previous_status before ≠ Some (status latest)) ∧
    (last_status_from previous_status before = Some (status latest) →
     head after = Some (Sleep 5)).
Proof.
  induction fuel as [|fuel IH];
    intros previous_status check_count h Hinv before e after latest Hout Hobs.
  - exfalso. cbn [monitor_loop] in Hout. revert Hout.
    destruct (bool_decide _); run_m; intros Hout.
    + by destruct before.
    + destruct before as [|? [|? ?]]; [|done..]. by injection Hout as <- _.
  - destruct (decide (check_count < max_checks)) as [Hlt|Hge].
    2:{ exfalso. rewrite monitor_loop_exit in Hout by done. cbn [snd] in Hout.
        destruct before as [|? [|? ?]]; [|done..]. by injection Hout as <- _. }
    rewrite monitor_loop_step in Hout by done.
    destruct (monitor_iteration_head previous_status check_count h Hinv)
      as (ctl & first & rest & Hit & Hquiet & Hctl & Hfirst).
    rewrite Hit in Hout.
    set (resp := respond h poll_request) in *.
    assert (Hhere : before = [] → e = Http poll_request resp →
                    ∀ tl, after = first :: tl →
      (head after = Some (Print ("Status: " +:+ status latest))
         ↔ last_status_from previous_status before ≠ Some (status latest)) ∧
      (last_status_from previous_status before = Some (status latest) →
       head after = Some (Sleep 5))).
    { intros -> -> tl ->. rewrite observed_poll in Hobs.
      destruct (Hfirst latest Hobs) as [Hiff Hsame]. cbn [head].
      unfold last_status_from. cbn [foldl]. split.
      - rewrite <- Hiff. split; [by intros [= ->]|by intros ->].
      - intros Heq. by rewrite Hsame. }
    destruct ctl as [p c|b]; cbn zeta in Hout; cbn [fst snd] in Hout.
    + destruct (Hctl p c eq_refl) as [Hp Hpinv].
      destruct before as [|x before].
      { cbn [app] in Hout. injection Hout as <- <-. by eapply Hhere. }
      cbn [app] in Hout. injection Hout as <- Hout.
      destruct (split_after_quiet (first :: rest) _ before after e
                  (eq_sym Hout) Hquiet)
        as (before' & -> & Hrest); [by rewrite Hobs|].
      replace (last_status_from previous_status
                 (Http poll_request resp :: (first :: rest) ++ before'))
        with (last_status_from p before').
      { eapply IH; [done| |done]. exact Hrest. }
      change (Http poll_request resp :: (first :: rest) ++ before')
        with ([Http poll_request resp] ++ (first :: rest) ++ before').
      rewrite !last_status_from_app, <- Hp.
      by rewrite (last_status_from_quiet p (first :: rest)).
    + destruct before as [|x before].
      { cbn [app] in Hout. injection Hout as <- <-. by eapply Hhere. }
      exfalso. cbn [app] in Hout. injection Hout as <- Hout.
      assert (He : e ∈ first :: rest).
      { rewrite Hout. apply elem_of_app. right. apply list_elem_of_here. }
      eapply Forall_forall in Hquiet; [|exact He]. congruence.
Qed.

End Facts.


(** ** A credential the HTTP stack refuses *)

Lemma no_line_break_app s t :
  Header.no_line_break (s +:+ t) = Header.no_line_break s && Header.no_line_break t.
Proof.
  induction s as [|c s IH]; [done|]. rewrite string_app_cons.
  cbn [Header.no_line_break]. rewrite IH. by rewrite !andb_assoc.
Qed.

(** The three headers can be sent exactly when the credential can; an
    absent one is sent as the text None. *)
Lemma sendable_headers environ :
  Header.sendable (HEADERS environ) =
  Header.value_ok (Py.str_of_opt (GITHUB_TOKEN environ)).
Proof.
  unfold Header.sendable, HEADERS. cbn [forallb snd].
  replace (Header.value_ok "application/vnd.github+json") with true by by vm_compute.
  replace (Header.value_ok "2022-11-28") with true by by vm_compute.
  rewrite !andb_true_r. reflexivity.
Qed.

Section Unsendable.

Variable environ : gmap string string.
Variable respond : list event → request → response.

Hypothesis Hbad : Header.sendable (HEADERS environ) = false.

Lemma get_workflow_runs_raises h :
  get_workflow_runs environ respond h = (Raised InvalidHeader, []).
Proof. unfold get_workflow_runs, requests_get. rewrite Hbad. by run_m. Qed.

Lemma get_workflow_id_raises workflow_name h :
  get_workflow_id environ respond workflow_name h = (Raised InvalidHeader, []).
Proof. unfold get_workflow_id, requests_get. rewrite Hbad. by run_m. Qed.

Lemma trigger_workflow_raises workflow_id h :
  trigger_workflow environ respond workflow_id h = (Raised InvalidHeader, []).
Proof. unfold trigger_workflow, requests_post. rewrite Hbad. by run_m. Qed.

Lemma monitor_latest_run_raises fuel h :
  monitor_latest_run environ respond fuel h =
  (match fuel with O => OutOfFuel | S _ => Raised InvalidHeader end,
   [Print monitoring_line]).
Proof.
  unfold monitor_latest_run. rewrite bind_run. unfold print at 1. cbn [fst snd].
  destruct fuel as [|fuel]; cbn [monitor_loop];
    rewrite bool_decide_eq_true_2 by done; [by run_m|].
  rewrite bind_run. unfold monitor_iteration.
  rewrite bind_run, get_workflow_runs_raises. done.
Qed.

Lemma resolve_and_trigger_raises h :
  resolve_and_trigger environ respond h = (Raised InvalidHeader, [Print checking_line]).
Proof.
  unfold resolve_and_trigger. rewrite bind_run. unfold print at 1. cbn [fst snd].
  rewrite bind_run, get_workflow_id_raises. done.
Qed.

Lemma main_raises fuel h :
  Py.truthy_str (GITHUB_TOKEN environ) = true →
  main environ respond fuel h = (Raised InvalidHeader, banner ++ [Print checking_line]).
Proof.
  intros Htok. unfold main. rewrite Htok. cbn [negb].
  run_m. rewrite resolve_and_trigger_raises. done.
Qed.

End Unsendable.
(** ** More facts about traces and about one iteration *)

Lemma count_zero_forall p (l : list event) :
  count p l = 0%nat → Forall (λ e, p e = false) l.
Proof.
  induction l as [|e l IH]; [constructor|].
  rewrite count_cons. destruct (p e) eqn:He; [lia|].
  intros Hl. constructor; [done|]. apply IH. lia.
Qed.

Lemma sleep_seconds_app out1 out2 :
  sleep_seconds (out1 ++ out2) = sleep_seconds out1 + sleep_seconds out2.
Proof.
  unfold sleep_seconds. induction out1 as [|e out1 IH]; [done|].
  cbn [app foldr]. destruct e; lia.
Qed.

Lemma sleep_seconds_quiet out :
  Forall (λ e, is_sleep e = false) out → sleep_seconds out = 0.
Proof.
  unfold sleep_seconds. induction 1 as [|e out He _ IH]; [done|].
  cbn [foldr]. by destruct e.
Qed.

Lemma split_after_no_request (pre out2 before after : list event) e :
  before ++ e :: after = pre ++ out2 →
  Forall (λ e', is_request e' = false) pre →
  is_request e = true →
  ∃ before', before = pre ++ before' ∧ out2 = before' ++ e :: after.
Proof.
  intros Heq Hpre He. revert before Heq.
  induction Hpre as [|x pre Hx _ IH]; intros before Heq.
  - by exists before.
  - destruct before as [|y before]; cbn in Heq.
    + injection Heq as -> _. congruence.
    + injection Heq as -> Heq. destruct (IH _ Heq) as (before' & -> & ->).
      by exists before'.
Qed.

Lemma observed_is_request e r : observed e = Some r → is_request e = true.
Proof. destruct e; done. Qed.

Lemma is_poll_is_request e : is_poll e = true → is_request e = true.
Proof. destruct e as [| |[]]; done. Qed.

Section MoreFacts.

Variable environ : gmap string string.
Variable respond : list event → request → response.

(** The credential makes a header the HTTP stack accepts. *)
Hypothesis Hsend : Header.sendable (HEADERS environ) = true.

(** The status an iteration hands on is the last one seen, whatever it
    was given. *)
Lemma monitor_iteration_shape previous_status check_count h :
  ∃ ctl rest,
    monitor_iteration environ respond previous_status check_count h
      = (Returned ctl, Http (runs_request environ) (respond h (runs_request environ)) :: rest) ∧
    Forall (λ e, is_request e = false) rest ∧
    (∀ p c, ctl = Continue p c →
       p = last_status_from previous_status
             [Http (runs_request environ) (respond h (runs_request environ))]).
Proof.
  destruct (monitor_iteration_cases environ respond Hsend previous_status check_count h)
    as (ctl & rest & Hit & Hrest & _).
  exists ctl, rest. split; [exact Hit|]. split; [exact Hrest|].
  intros p c ->. revert Hit. rewrite (monitor_iteration_run environ respond Hsend).
  unfold last_status_from, runs_request. cbn [foldl]. rewrite observed_poll.
  destruct (runs_of _) as [|latest tl]; cbn [head].
  - by intros [= <- _].
  - destruct (bool_decide (status latest = "completed")).
    + by destruct (bool_decide (conclusion latest = Some "success")).
    + intros [= <- _]. case_bool_decide as Hch; [done|].
      by rewrite <- Hch.
Qed.

(** Every request in the output of the loop opens an iteration: it and the
    events up to the next request are the output of [monitor_iteration] run
    with the status last seen before it, and nothing follows an iteration
    that returns. *)
Lemma monitor_loop_at fuel : ∀ previous_status check_count h before e after,
  (monitor_loop environ respond fuel previous_status check_count h).2
    = before ++ e :: after →
  is_request e = true →
  ∃ check_count' h' ctl rest after',
    monitor_iteration environ respond
      (last_status_from previous_status before) check_count' h'
      = (Returned ctl, e :: rest) ∧
    e = Http (runs_request environ) (respond h' (runs_request environ)) ∧
    after = rest ++ after' ∧
    Forall (λ e', is_request e' = false) rest ∧
    (∀ b, ctl = Return b → after' = []).
Proof.
  induction fuel as [|fuel IH];
    intros previous_status check_count h before e after Hout He.
  - exfalso. cbn [monitor_loop] in Hout. revert Hout.
    destruct (bool_decide _); run_m; intros Hout.
    + by destruct before.
    + destruct before as [|? [|? ?]]; [|done..]. by injection Hout as <- _.
  - destruct (decide (check_count < max_checks)) as [Hlt|Hge].
    2:{ exfalso. rewrite monitor_loop_exit in Hout by done. cbn [snd] in Hout.
        destruct before as [|? [|? ?]]; [|done..]. by injection Hout as <- _. }
    rewrite monitor_loop_step in Hout by done.
    destruct (monitor_iteration_shape previous_status check_count h)
      as (ctl & rest & Hit & Hrest & Hnext).
    rewrite Hit in Hout.
    destruct before as [|x before].
    { exists check_count, h, ctl, rest. cbn [last_status_from foldl].
      destruct ctl as [p c|b]; cbn zeta in Hout; cbn [fst snd app] in Hout;
        injection Hout as <- <-.
      - eexists. split; [exact Hit|]. split; [done|]. split; [done|].
        split; [done|]. done.
      - exists []. split; [exact Hit|]. split; [done|].
        split; [by rewrite app_nil_r|]. split; [done|]. done. }
    destruct ctl as [p c|b]; cbn zeta in Hout; cbn [fst snd app] in Hout;
      injection Hout as <- Hout.
    + destruct (split_after_no_request rest _ before after e (eq_sym Hout) Hrest He)
        as (before' & -> & Hrest').
      destruct (IH p c _ before' e after Hrest' He)
        as (c' & h' & ctl' & rest' & after' & Hit' & He' & Hafter & Hq & Hret).
      exists c', h', ctl', rest', after'.
      replace (last_status_from previous_status
                 (Http (runs_request environ) (respond h (runs_request environ))
                    :: rest ++ before'))
        with (last_status_from p before'); [done|].
      change (Http (runs_request environ) (respond h (runs_request environ))
                :: rest ++ before')
        with ([Http (runs_request environ) (respond h (runs_request environ))]
                ++ rest ++ before').
      rewrite !last_status_from_app, <- (Hnext p c eq_refl).
      rewrite (last_status_from_quiet p rest); [done|].
      eapply Forall_impl; [exact Hrest|]. apply not_request_not_observed.
    + exfalso. assert (Hin : e ∈ rest).
      { rewrite Hout. apply elem_of_app. right. apply list_elem_of_here. }
      eapply Forall_forall in Hrest; [|exact Hin]. congruence.
Qed.

(** The same for [monitor_latest_run], whose loop starts with no status. *)
Lemma monitor_latest_run_at fuel h before e after :
  (monitor_latest_run environ respond fuel h).2 = before ++ e :: after →
  is_request e = true →
  ∃ check_count' h' ctl rest after',
    monitor_iteration environ respond (last_status before) check_count' h'
      = (Returned ctl, e :: rest) ∧
    e = Http (runs_request environ) (respond h' (runs_request environ)) ∧
    after = rest ++ after' ∧
    Forall (λ e', is_request e' = false) rest ∧
    (∀ b, ctl = Return b → after' = []).
Proof.
  rewrite monitor_latest_run_run. cbn zeta. cbn [snd]. intros Hout He.
  destruct before as [|x before]; [by injection Hout as <- _|].
  injection Hout as <- Hout.
  change (last_status (Print monitoring_line :: before))
    with (last_status_from None before).
  by eapply monitor_loop_at.
Qed.

End MoreFacts.

Section Shapes.

Variable environ : gmap string string.
Variable respond : list event → request → response.

(** The credential makes a header the HTTP stack accepts. *)
Hypothesis Hsend : Header.sendable (HEADERS environ) = true.

Lemma status_lines_monitoring previous_status latest :
  Forall (monitoring_event environ) (status_lines previous_status latest).
Proof.
  eapply Forall_impl; [apply status_lines_prints|]. by intros e [line ->].
Qed.

Lemma monitor_iteration_events previous_status check_count h :
  Forall (monitoring_event environ)
    (monitor_iteration environ respond previous_status check_count h).2.
Proof.
  rewrite (monitor_iteration_run environ respond Hsend). cbn zeta.
  destruct (runs_of _) as [|latest tl]; [by repeat constructor|].
  repeat case_bool_decide; cbn [snd]; (constructor; [done|]);
    (apply Forall_app; split; [apply status_lines_monitoring|by repeat constructor]).
Qed.

Lemma monitor_loop_events fuel : ∀ previous_status check_count h,
  Forall (monitoring_event environ)
    (monitor_loop environ respond fuel previous_status check_count h).2.
Proof.
  induction fuel as [|fuel IH]; intros previous_status check_count h.
  - cbn [monitor_loop]. destruct (bool_decide _); run_m; by repeat constructor.
  - destruct (decide (check_count < max_checks)) as [Hlt|Hge].
    2:{ rewrite monitor_loop_exit by done. by repeat constructor. }
    rewrite monitor_loop_step by done.
    pose proof (monitor_iteration_events previous_status check_count h) as Hit.
    destruct (monitor_iteration _ _ _ _ _) as [[[p c|b]|e|] out1]; cbn [snd] in *;
      [|done..].
    apply Forall_app. split; [done|]. apply IH.
Qed.

Lemma monitor_latest_run_events fuel h :
  Forall (monitoring_event environ) (monitor_latest_run environ respond fuel h).2.
Proof.
  rewrite monitor_latest_run_run. cbn zeta. cbn [snd].
  constructor; [done|]. apply monitor_loop_events.
Qed.

Lemma get_workflow_id_run workflow_name h :
  get_workflow_id environ respond workflow_name h =
  (Returned (workflow_id_of workflow_name (respond h (workflows_request environ))),
   [Http (workflows_request environ) (respond h (workflows_request environ))]).
Proof.
  unfold get_workflow_id, workflow_id_of, requests_get, workflows_request.
  rewrite Hsend. run_m.
  by case_bool_decide.
Qed.

Lemma trigger_workflow_run workflow_id h :
  trigger_workflow environ respond workflow_id h =
  (Returned (bool_decide
           (status_code (respond h (dispatch_request environ workflow_id)) = 204)),
   [Http (dispatch_request environ workflow_id)
         (respond h (dispatch_request environ workflow_id))]).
Proof.
  unfold trigger_workflow, requests_post, dispatch_request. rewrite Hsend. by run_m.
Qed.

(** The workflow lookup and trigger, case by case. *)
Lemma resolve_and_trigger_run h :
  ∃ dispatch_resp,
    resolve_and_trigger environ respond h =
    (Returned (),
     Print checking_line
       :: Http (workflows_request environ)
            (respond (h ++ [Print checking_line]) (workflows_request environ))
       :: lookup_tail environ
            (workflow_id_of "build.yml"
               (respond (h ++ [Print checking_line]) (workflows_request environ)))
            dispatch_resp).
Proof.
  unfold resolve_and_trigger, lookup_tail.
  rewrite bind_run. unfold print at 1. cbn [fst snd].
  rewrite bind_run, get_workflow_id_run. cbn [fst snd].
  fold checking_line.
  destruct (Py.truthy_int _); [|exists (Response 0 (JsonBody [] [])); by run_m].
  do 3 (run_m; rewrite ?trigger_workflow_run).
  match goal with
  | |- context [Http (dispatch_request _ _) ?r] => exists r
  end.
  case_bool_decide; by run_m.
Qed.

(** The loop returns [True] or [False] only for a completed run it saw. *)
Lemma monitor_loop_returned fuel : ∀ previous_status check_count h b out,
  monitor_loop environ respond fuel previous_status check_count h = (Returned (Some b), out) →
  ∃ e r, e ∈ out ∧ observed e = Some r ∧ status r = "completed" ∧
         b = bool_decide (conclusion r = Some "success").
Proof.
  induction fuel as [|fuel IH]; intros previous_status check_count h b out Hrun.
  - cbn [monitor_loop] in Hrun. revert Hrun. destruct (bool_decide _); by run_m.
  - destruct (decide (check_count < max_checks)) as [Hlt|Hge].
    2:{ by rewrite monitor_loop_exit in Hrun by done. }
    rewrite monitor_loop_step in Hrun by done.
    destruct (monitor_iteration_cases environ respond Hsend previous_status check_count h)
      as (ctl & rest & Hit & Hrest & Hctl).
    rewrite Hit in Hrun. destruct ctl as [p c|b'].
    + cbn zeta in Hrun. injection Hrun as Hres <-.
      destruct (IH p c _ b _ (eq_trans (surjective_pairing _) (f_equal2 pair Hres eq_refl)))
        as (e & r & He & Hobs & Hst & Hb).
      exists e, r. split; [|done]. rewrite app_comm_cons. apply elem_of_app. by right.
    + injection Hrun as <- <-.
      destruct (head _) as [latest|] eqn:Hhead; [|by destruct Hctl].
      destruct (decide (status latest = "completed")) as [Hst|Hst].
      * rewrite bool_decide_eq_true_2 in Hctl by done. destruct Hctl as [[= ->] _].
        eexists _, latest. split; [apply list_elem_of_here|].
        by rewrite observed_poll.
      * rewrite bool_decide_eq_false_2 in Hctl by done. by destruct Hctl as [[? ?] _].
Qed.

(** Requests and sleeping time of the loop, for any fuel. *)
Lemma monitor_iteration_budget previous_status check_count h :
  count is_request (monitor_iteration environ respond previous_status check_count h).2
    = 1%nat ∧
  0 ≤ sleep_seconds (monitor_iteration environ respond previous_status check_count h).2 ≤ 5.
Proof.
  destruct (monitor_iteration_cases environ respond Hsend previous_status check_count h)
    as (ctl & rest & Hit & Hrest & _).
  pose proof (monitor_iteration_events previous_status check_count h) as Hev.
  rewrite Hit in *. cbn [snd] in *. rewrite count_cons, (count_none _ _ Hrest).
  split; [done|]. apply Forall_cons in Hev as [_ Hev].
  change (sleep_seconds (?e :: rest)) with (sleep_seconds rest).
  rewrite (monitor_iteration_run environ respond Hsend) in Hit. cbn zeta in Hit.
  assert (Hsl : ∀ prev latest tl, sleep_seconds (status_lines prev latest ++ tl)
                                  = sleep_seconds tl).
  { intros prev latest tl. rewrite sleep_seconds_app, sleep_seconds_quiet; [done|].
    eapply Forall_impl; [apply status_lines_prints|]. by intros e [line ->]. }
  destruct (runs_of _) as [|latest tl]; [by injection Hit as _ <-|].
  repeat case_bool_decide; injection Hit as _ <-; rewrite Hsl; by cbn.
Qed.

Lemma monitor_loop_budget fuel : ∀ previous_status check_count h,
  (count is_request
     (monitor_loop environ respond fuel previous_status check_count h).2
   ≤ Z.to_nat (max_checks - check_count))%nat ∧
  0 ≤ sleep_seconds (monitor_loop environ respond fuel previous_status check_count h).2
    ≤ 5 * Z.max 0 (max_checks - check_count).
Proof.
  induction fuel as [|fuel IH]; intros previous_status check_count h.
  - cbn [monitor_loop]. destruct (bool_decide _); run_m; cbn; lia.
  - destruct (decide (check_count < max_checks)) as [Hlt|Hge].
    2:{ rewrite monitor_loop_exit by done. cbn. lia. }
    rewrite monitor_loop_step by done.
    destruct (monitor_iteration_budget previous_status check_count h) as [Hreq Hsl].
    destruct (monitor_iteration_cases environ respond Hsend previous_status check_count h)
      as (ctl & rest & Hit & _ & Hctl).
    rewrite Hit in *. cbn [snd] in *. destruct ctl as [p c|b]; cbn zeta; cbn [fst snd].
    + assert (c = check_count + 1) as ->.
      { destruct (head _) as [latest|]; [destruct (bool_decide _)|].
        - by destruct Hctl.
        - destruct Hctl as [[p' [= _ ->]] _]. done.
        - destruct Hctl as [[= _ ->] _]. done. }
      destruct (IH p (check_count + 1)
                  (h ++ Http (runs_request environ) (respond h (runs_request environ))
                     :: rest)) as [Hr Hs].
      unfold runs_request in *. rewrite count_app, sleep_seconds_app. lia.
    + lia.
Qed.

End Shapes.

Section MainTrace.

Variable environ : gmap string string.
Variable respond : list event → request → response.

(** The credential makes a header the HTTP stack accepts. *)
Hypothesis Hsend : Header.sendable (HEADERS environ) = true.

Lemma banner_prints : Forall (λ e, ∃ line, e = Print line) banner.
Proof. unfold banner. repeat constructor; eauto. Qed.

Lemma report_lines_prints result :
  Forall (λ e, ∃ line, e = Print line) (from_option report_lines [] result).
Proof. destruct result as [[[|]|]|]; cbn; repeat constructor; eauto. Qed.

(** The trace of [main] run with a credential, in its four parts. *)
Lemma main_trace fuel h :
  Py.truthy_str (GITHUB_TOKEN environ) = true →
  ∃ dispatch_resp h',
    (main environ respond fuel h).2 =
      banner ++
      (Print checking_line
         :: Http (workflows_request environ)
              (respond (h ++ banner ++ [Print checking_line]) (workflows_request environ))
         :: lookup_tail environ (found_workflow environ respond h) dispatch_resp) ++
      (monitor_latest_run environ respond fuel h').2 ++
      from_option report_lines [] (returned (monitor_latest_run environ respond fuel h').1) ∧
    (main environ respond fuel h).1 =
      exit_code_of <$> (monitor_latest_run environ respond fuel h').1.
Proof.
  intros Htok. rewrite (main_run environ respond Hsend) by done. cbn zeta. cbn [fst snd].
  destruct (resolve_and_trigger_run environ respond Hsend (h ++ banner)) as [dresp Hrun].
  rewrite Hrun. cbn [snd]. unfold found_workflow.
  rewrite <- (app_assoc h banner [Print checking_line]) in *.
  eexists dresp, _. split; [|done]. by rewrite <- app_assoc.
Qed.

Lemma main_without_credential fuel h :
  Py.truthy_str (GITHUB_TOKEN environ) = false →
  main environ respond fuel h = (Returned 1, [Print missing_credential_line]).
Proof. intros Htok. unfold main. rewrite Htok. cbn [negb]. by run_m. Qed.

End MainTrace.

Lemma prints_count p (l : list event) :
  (∀ line, p (Print line) = false) →
  Forall (λ e, ∃ line, e = Print line) l → count p l = 0%nat.
Proof.
  intros Hp Hl. apply count_none. eapply Forall_impl; [exact Hl|].
  intros e [line ->]. apply Hp.
Qed.

Lemma monitoring_no_dispatch environ (l : list event) :
  Forall (monitoring_event environ) l → count is_dispatch l = 0%nat.
Proof.
  intros Hl. apply count_none. eapply Forall_impl; [exact Hl|].
  intros [| |req resp]; [done..|]. by intros ->.
Qed.


(** When the headers are refused, or the credential is missing, [main]
    only prints. *)
Lemma main_only_prints environ respond fuel h :
  Header.sendable (HEADERS environ) = false →
  ∀ e, e ∈ (main environ respond fuel h).2 → ∃ line, e = Print line.
Proof.
  intros Hbad e He.
  destruct (Py.truthy_str (GITHUB_TOKEN environ)) eqn:Htok.
  - rewrite (main_raises environ respond Hbad) in He by done. cbn [snd] in He.
    apply elem_of_app in He as [He|He].
    + eapply Forall_forall in He; [|apply banner_prints]. exact He.
    + apply list_elem_of_singleton in He as ->. eauto.
  - rewrite main_without_credential in He by done.
    apply list_elem_of_singleton in He as ->. eauto.
Qed.

(** When the headers are refused, the monitoring sends nothing. *)
Lemma monitor_trace_no_request environ respond fuel h before e after :
  Header.sendable (HEADERS environ) = false →
  (monitor_latest_run environ respond fuel h).2 = before ++ e :: after →
  is_request e = false.
Proof.
  intros Hbad. rewrite (monitor_latest_run_raises environ respond Hbad). cbn [snd].
  intros Hout. destruct before as [|x [|y before]]; [|done..].
  by injection Hout as <- _.
Qed.

(** * The properties *)

(** ** Exit codes *)

(** [C1] In every execution in which a polling request of the monitoring
    shows a run whose status is 'completed', the process exits with code 0
    when the conclusion of that run is 'success' and with code 1 for any
    other conclusion, a null or absent one included. *)
Theorem completed_run_exit_code environ respond fuel h e r :
  e ∈ (main environ respond fuel h).2 →
  observed e = Some r →
  status r = "completed" →
  (main environ respond fuel h).1 =
    Returned (if bool_decide (conclusion r = Some "success") then 0 else 1).
Proof.
  intros He Hobs Hst.
  destruct (Header.sendable (HEADERS environ)) eqn:Hsend.
  2:{ destruct (main_only_prints environ respond fuel h Hsend e He) as [line ->].
      done. }
  destruct (Py.truthy_str (GITHUB_TOKEN environ)) eqn:Htok.
  2:{ unfold main in He. rewrite Htok in He. revert He. run_m. cbn [negb]. run_m.
      intros ->%list_elem_of_singleton. done. }
  rewrite (main_run environ respond Hsend) in * by done.
  destruct (resolve_and_trigger_cases environ respond Hsend (h ++ banner))
    as (pre & Hpre & _ & Hnobs).
  rewrite Hpre in *. cbn [fst snd] in *.
  rewrite monitor_latest_run_run in *. cbn zeta in *. cbn [fst snd] in *.
  destruct (monitor_loop _ _ _ _ _ _) as [result out] eqn:Hloop. cbn [fst snd] in *.
  assert (Hin : e ∈ out).
  { rewrite !elem_of_app, elem_of_cons in He.
    destruct He as [[He|He]|[[->|He]|He]]; [| |done|done|].
    - unfold banner in He. rewrite !elem_of_cons, elem_of_nil in He.
      destruct He as [->|[->|[->|[->|[]]]]]; done.
    - eapply Forall_forall in Hnobs; [|exact He]. congruence.
    - destruct result as [[b|]|e'|]; cbn in He;
        rewrite ?elem_of_cons, ?elem_of_nil in He; [done| |done..].
      destruct He as [->|[->|[]]]; done. }
  rewrite (monitor_loop_completed _ _ Hsend _ _ _ _ _ _ Hloop e r Hin Hobs Hst).
  cbn. by case_bool_decide.
Qed.

Lemma completed_run_exit_code_witness :
  (main Scenario.with_token (Scenario.always 200 [] [Scenario.succeeded]) 60 []).1
    = Returned 0 ∧
  (main Scenario.with_token (Scenario.always 200 [] [Scenario.no_conclusion]) 60 []).1
    = Returned 1.
Proof.
  split.
  - apply (completed_run_exit_code Scenario.with_token
             (Scenario.always 200 [] [Scenario.succeeded]) 60 []
             (Http (runs_request Scenario.with_token)
                   (Response 200 (JsonBody [] [Scenario.succeeded])))
             Scenario.succeeded).
    + vm_compute. repeat first [apply list_elem_of_here | apply list_elem_of_further].
    + reflexivity.
    + reflexivity.
  - apply (completed_run_exit_code Scenario.with_token
             (Scenario.always 200 [] [Scenario.no_conclusion]) 60 []
             (Http (runs_request Scenario.with_token)
                   (Response 200 (JsonBody [] [Scenario.no_conclusion])))
             Scenario.no_conclusion).
    + vm_compute. repeat first [apply list_elem_of_here | apply list_elem_of_further].
    + reflexivity.
    + reflexivity.
Defined.

(** [C2] When the variable GITHUB_PAT is absent from the environment, the
    process prints the missing-credential line, exits with code 1 and sends
    no request at all. *)
Theorem missing_credential_exit environ respond fuel h :
  environ !! "GITHUB_PAT" = None →
  main environ respond fuel h = (Returned 1, [Print missing_credential_line]) ∧
  count is_request (main environ respond fuel h).2 = 0%nat.
Proof.
  intros Henv.
  assert (main environ respond fuel h = (Returned 1, [Print missing_credential_line])) as ->.
  { unfold main, GITHUB_TOKEN. rewrite Henv. cbn [Py.truthy_str negb]. by run_m. }
  done.
Qed.

Lemma missing_credential_exit_witness :
  main ∅ (Scenario.always 200 Scenario.two_workflows [Scenario.succeeded]) 60 []
    = (Returned 1, [Print missing_credential_line]) ∧
  count is_request
    (main ∅ (Scenario.always 200 Scenario.two_workflows [Scenario.succeeded]) 60 []).2 = 0%nat.
Proof.
  apply (missing_credential_exit ∅
           (Scenario.always 200 Scenario.two_workflows [Scenario.succeeded]) 60 []).
  reflexivity.
Defined.

(** ** The three requests *)

(** [C3], as the specification words it, does not hold: a response with
    status 201, which is a 2xx status, carrying one run and a workflow whose
    path ends with build.yml gives the caller of [get_workflow_runs] the
    empty list and the caller of [get_workflow_id] no id. *)
Lemma created_status_yields_no_data :
  200 ≤ status_code Scenario.created < 300 ∧
  Scenario.always 201 Scenario.two_workflows [Scenario.in_progress] []
    (runs_request Scenario.with_token) = Scenario.created ∧
  Scenario.always 201 Scenario.two_workflows [Scenario.in_progress] []
    (workflows_request Scenario.with_token) = Scenario.created ∧
  (get_workflow_runs Scenario.with_token
     (Scenario.always 201 Scenario.two_workflows [Scenario.in_progress]) []).1
    = Returned [] ∧
  workflow_runs (json Scenario.created) = [Scenario.in_progress] ∧
  (get_workflow_id Scenario.with_token
     (Scenario.always 201 Scenario.two_workflows [Scenario.in_progress])
     "build.yml" []).1 = Returned None ∧
  first_workflow "build.yml" (workflows (json Scenario.created)) = Some 7.
Proof. repeat split; done. Qed.

(** [C3], amended: for the list-runs and the list-workflows request,
    failure is exactly a status other than 200.  A response with status 200
    gives the caller the data of its body (the run list; the result of the
    search through the workflows), any other status gives the empty result
    (the empty run list; no workflow id), and either way exactly one
    request is sent: nothing is retried.  There is a response whenever the
    headers can be sent. *)
Theorem list_requests_fail_on_non_200 environ respond workflow_name h :
  Header.sendable (HEADERS environ) = true →
  (get_workflow_runs environ respond h).2 =
    [Http (runs_request environ) (respond h (runs_request environ))] ∧
  (status_code (respond h (runs_request environ)) = 200 →
   (get_workflow_runs environ respond h).1 =
     Returned (workflow_runs (json (respond h (runs_request environ))))) ∧
  (status_code (respond h (runs_request environ)) ≠ 200 →
   (get_workflow_runs environ respond h).1 = Returned []) ∧
  (get_workflow_id environ respond workflow_name h).2 =
    [Http (workflows_request environ) (respond h (workflows_request environ))] ∧
  (status_code (respond h (workflows_request environ)) = 200 →
   (get_workflow_id environ respond workflow_name h).1 =
     Returned (first_workflow workflow_name
                 (workflows (json (respond h (workflows_request environ)))))) ∧
  (status_code (respond h (workflows_request environ)) ≠ 200 →
   (get_workflow_id environ respond workflow_name h).1 = Returned None).
Proof.
  intros Hsend. unfold runs_request, workflows_request.
  rewrite (get_workflow_runs_run environ respond Hsend).
  unfold runs_of, get_workflow_id, requests_get. rewrite Hsend.
  run_m. repeat case_bool_decide; run_m; repeat split; try done.
Qed.

Lemma list_requests_fail_on_non_200_witness :
  (get_workflow_runs Scenario.with_token
     (Scenario.always 200 Scenario.two_workflows [Scenario.in_progress]) []).1
    = Returned [Scenario.in_progress] ∧
  (get_workflow_runs Scenario.with_token
     (Scenario.always 201 Scenario.two_workflows [Scenario.in_progress]) []).1
    = Returned [] ∧
  (get_workflow_id Scenario.with_token
     (Scenario.always 200 Scenario.two_workflows [Scenario.in_progress]) "build.yml" []).1
    = Returned (Some 7) ∧
  (get_workflow_id Scenario.with_token
     (Scenario.always 503 Scenario.two_workflows [Scenario.in_progress]) "build.yml" []).1
    = Returned None.
Proof.
  pose proof (list_requests_fail_on_non_200 Scenario.with_token
    (Scenario.always 200 Scenario.two_workflows [Scenario.in_progress]) "build.yml" []
    eq_refl)
    as (_ & Hruns & _ & _ & Hid & _).
  pose proof (list_requests_fail_on_non_200 Scenario.with_token
    (Scenario.always 201 Scenario.two_workflows [Scenario.in_progress]) "build.yml" []
    eq_refl)
    as (_ & _ & Hruns' & _).
  pose proof (list_requests_fail_on_non_200 Scenario.with_token
    (Scenario.always 503 Scenario.two_workflows [Scenario.in_progress]) "build.yml" []
    eq_refl)
    as (_ & _ & _ & _ & _ & Hid').
  split; [apply Hruns; reflexivity|].
  split; [apply Hruns'; by vm_compute|].
  split; [apply Hid; reflexivity|].
  apply Hid'. by vm_compute.
Defined.

(** [C6] [trigger_workflow] sends one dispatch request and reports success
    if and only if the status of the response is exactly 204; with any other
    status it reports failure.  There is a response whenever the headers can
    be sent. *)
Theorem trigger_workflow_204 environ respond workflow_id h :
  Header.sendable (HEADERS environ) = true →
  ∃ triggered,
    trigger_workflow environ respond workflow_id h =
      (Returned triggered,
       [Http (dispatch_request environ workflow_id)
             (respond h (dispatch_request environ workflow_id))]) ∧
    (triggered = true
       ↔ status_code (respond h (dispatch_request environ workflow_id)) = 204) ∧
    (triggered = false
       ↔ status_code (respond h (dispatch_request environ workflow_id)) ≠ 204).
Proof.
  intros Hsend. unfold dispatch_request, trigger_workflow, requests_post.
  rewrite Hsend. run_m.
  eexists. split; [done|]. case_bool_decide; naive_solver.
Qed.

Lemma trigger_workflow_204_witness :
  ∃ triggered,
    trigger_workflow Scenario.with_token
      (Remote.fixed Scenario.two_workflows 204 []) (Some 7) [] =
      (Returned triggered,
       [Http (dispatch_request Scenario.with_token (Some 7))
             (Remote.fixed Scenario.two_workflows 204 [] []
                (dispatch_request Scenario.with_token (Some 7)))]) ∧
    (triggered = true
       ↔ status_code (Remote.fixed Scenario.two_workflows 204 [] []
                        (dispatch_request Scenario.with_token (Some 7))) = 204) ∧
    (triggered = false
       ↔ status_code (Remote.fixed Scenario.two_workflows 204 [] []
                        (dispatch_request Scenario.with_token (Some 7))) ≠ 204).
Proof.
  apply (trigger_workflow_204 Scenario.with_token
           (Remote.fixed Scenario.two_workflows 204 []) (Some 7) []).
  reflexivity.
Defined.

(** [C7], as the specification words it, does not hold: a response with
    status 201 is a successful one, its first workflow has a path that ends
    with build.yml, and [get_workflow_id] returns no id instead of 7. *)
Lemma created_listing_returns_no_id :
  200 ≤ status_code Remote.created_listing < 300 ∧
  Scenario.always 201 [Workflow 7 ".github/workflows/build.yml"] [] []
    (workflows_request Scenario.with_token) = Remote.created_listing ∧
  workflows (json Remote.created_listing) =
    [] ++ Workflow 7 ".github/workflows/build.yml" :: [] ∧
  ends_with (w_path (Workflow 7 ".github/workflows/build.yml")) "build.yml" ∧
  (get_workflow_id Scenario.with_token
     (Scenario.always 201 [Workflow 7 ".github/workflows/build.yml"] [])
     "build.yml" []).1 = Returned None.
Proof.
  repeat split; try done. by exists ".github/workflows/".
Qed.

(** [C7], amended: [get_workflow_id] resolves a workflow by name: for every
    list-workflows response with status 200 it returns the id of the first
    workflow whose path ends with the name, and it returns [None] when no
    path ends with the name or the status is anything other than 200, other
    2xx codes included.  There is a response whenever the headers can be
    sent. *)
Theorem get_workflow_id_first_match environ respond workflow_name h :
  Header.sendable (HEADERS environ) = true →
  (status_code (respond h (workflows_request environ)) = 200 →
   ∀ before w after,
     workflows (json (respond h (workflows_request environ))) = before ++ w :: after →
     ends_with (w_path w) workflow_name →
     Forall (λ w', ¬ ends_with (w_path w') workflow_name) before →
     (get_workflow_id environ respond workflow_name h).1 = Returned (Some (w_id w))) ∧
  (status_code (respond h (workflows_request environ)) = 200 →
   Forall (λ w, ¬ ends_with (w_path w) workflow_name)
     (workflows (json (respond h (workflows_request environ)))) →
   (get_workflow_id environ respond workflow_name h).1 = Returned None) ∧
  (status_code (respond h (workflows_request environ)) ≠ 200 →
   (get_workflow_id environ respond workflow_name h).1 = Returned None).
Proof.
  intros Hsend. unfold workflows_request, get_workflow_id, requests_get.
  rewrite Hsend. run_m.
  split; [|split].
  - intros Hok before w after Hws Hw Hbefore.
    rewrite bool_decide_eq_true_2 by done. run_m. rewrite Hws. do 2 f_equal.
    apply first_workflow_match; [by apply endswith_spec|].
    eapply Forall_impl; [exact Hbefore|]. intros w'. apply not_ends_with.
  - intros Hok Hnone. rewrite bool_decide_eq_true_2 by done. run_m. do 2 f_equal.
    apply first_workflow_none.
    eapply Forall_impl; [exact Hnone|]. intros w'. apply not_ends_with.
  - intros Hfail. rewrite bool_decide_eq_false_2 by done. by run_m.
Qed.

Lemma get_workflow_id_first_match_witness :
  (get_workflow_id Scenario.with_token
     (Scenario.always 200 Scenario.two_workflows []) "build.yml" []).1
    = Returned (Some 7) ∧
  (get_workflow_id Scenario.with_token
     (Scenario.always 200 Scenario.two_workflows []) "deploy.yml" []).1
    = Returned None ∧
  (get_workflow_id Scenario.with_token
     (Scenario.always 404 Scenario.two_workflows []) "build.yml" []).1
    = Returned None.
Proof.
  split; [|split].
  - apply (proj1 (get_workflow_id_first_match Scenario.with_token
                    (Scenario.always 200 Scenario.two_workflows []) "build.yml" []
                    eq_refl))
      with (before := [Workflow 3 ".github/workflows/test.yml"])
           (w := Workflow 7 ".github/workflows/build.yml") (after := []).
    + reflexivity.
    + reflexivity.
    + by exists ".github/workflows/".
    + repeat constructor. rewrite ends_with_iff. by vm_compute.
  - apply (proj1 (proj2 (get_workflow_id_first_match Scenario.with_token
                    (Scenario.always 200 Scenario.two_workflows []) "deploy.yml" []
                    eq_refl))).
    + reflexivity.
    + repeat constructor; rewrite ends_with_iff; by vm_compute.
  - apply (proj2 (proj2 (get_workflow_id_first_match Scenario.with_token
                    (Scenario.always 404 Scenario.two_workflows []) "build.yml" []
                    eq_refl))).
    by vm_compute.
Defined.

(** ** The credential *)

(** [C10] A GITHUB_PAT that is present but empty is treated exactly like
    an absent one: the process prints the missing-credential line, exits
    with code 1 and sends no request, as it does once the variable is
    removed from the environment. *)
Theorem empty_credential_exit environ respond fuel h :
  environ !! "GITHUB_PAT" = Some "" →
  main environ respond fuel h = (Returned 1, [Print missing_credential_line]) ∧
  main environ respond fuel h = main (delete "GITHUB_PAT" environ) respond fuel h ∧
  count is_request (main environ respond fuel h).2 = 0%nat.
Proof.
  intros Henv.
  assert (main environ respond fuel h = (Returned 1, [Print missing_credential_line])) as ->.
  { unfold main, GITHUB_TOKEN. rewrite Henv. cbn [Py.truthy_str negb String.eqb]. by run_m. }
  split; [done|]. split; [|done].
  unfold main, GITHUB_TOKEN. rewrite lookup_delete_eq. cbn [Py.truthy_str negb]. by run_m.
Qed.

Lemma empty_credential_exit_witness :
  main Scenario.empty_token
    (Scenario.always 200 Scenario.two_workflows [Scenario.succeeded]) 60 []
    = (Returned 1, [Print missing_credential_line]) ∧
  main Scenario.empty_token
    (Scenario.always 200 Scenario.two_workflows [Scenario.succeeded]) 60 []
    = main (delete "GITHUB_PAT" Scenario.empty_token)
        (Scenario.always 200 Scenario.two_workflows [Scenario.succeeded]) 60 [] ∧
  count is_request
    (main Scenario.empty_token
       (Scenario.always 200 Scenario.two_workflows [Scenario.succeeded]) 60 []).2 = 0%nat.
Proof.
  apply (empty_credential_exit Scenario.empty_token
           (Scenario.always 200 Scenario.two_workflows [Scenario.succeeded]) 60 []).
  reflexivity.
Defined.

(** ** The polling loop *)

(** [C4] The polling loop of [monitor_latest_run] terminates after at most
    the configured maximum of 60 attempts, whatever the remote answers: with
    fuel for 60 iterations the function ends, returning a result whenever
    the headers can be sent, having sent at most 60 requests, all of them
    polling requests, and slept at most 60 times. *)
Theorem polling_terminates environ respond fuel h :
  (Z.to_nat max_checks ≤ fuel)%nat →
  ∃ o out,
    monitor_latest_run environ respond fuel h = (o, out) ∧
    o ≠ OutOfFuel ∧
    (Header.sendable (HEADERS environ) = true → ∃ result, o = Returned result) ∧
    (count is_poll out ≤ Z.to_nat max_checks)%nat ∧
    (count is_sleep out ≤ Z.to_nat max_checks)%nat ∧
    count is_request out = count is_poll out ∧
    max_checks = 60.
Proof.
  intros Hfuel.
  destruct (Header.sendable (HEADERS environ)) eqn:Hsend.
  2:{ rewrite (monitor_latest_run_raises environ respond Hsend).
      eexists _, _. split; [done|].
      destruct fuel as [|fuel]; [unfold max_checks in Hfuel; lia|].
      split; [done|]. split; [done|]. unfold count, max_checks.
      cbn [List.filter is_poll is_sleep is_request length]. lia. }
  rewrite monitor_latest_run_run. cbn zeta.
  destruct (monitor_loop_bounded environ respond Hsend fuel None 0
              (h ++ [Print monitoring_line]))
    as (result & out & -> & Hp & Hs & Hr); [by rewrite Z.sub_0_r|].
  rewrite Z.sub_0_r in Hp, Hs.
  exists (Returned result), (Print monitoring_line :: out).
  rewrite !count_cons. cbn [fst snd is_poll is_sleep is_request].
  split; [done|]. split; [done|]. split; [eauto|]. done.
Qed.

Lemma polling_terminates_witness :
  ∃ o out,
    monitor_latest_run Scenario.with_token
      (Scenario.always 200 [] [Scenario.in_progress]) 60 [] = (o, out) ∧
    o ≠ OutOfFuel ∧
    (Header.sendable (HEADERS Scenario.with_token) = true →
     ∃ result, o = Returned result) ∧
    (count is_poll out ≤ Z.to_nat max_checks)%nat ∧
    (count is_sleep out ≤ Z.to_nat max_checks)%nat ∧
    count is_request out = count is_poll out ∧
    max_checks = 60.
Proof.
  apply (polling_terminates Scenario.with_token
           (Scenario.always 200 [] [Scenario.in_progress]) 60 []).
  unfold max_checks. lia.
Defined.

(** [C5] When the polling loop uses up its attempts without having seen a
    completed run, the outcome is inconclusive and not a failure: the
    timeout line is printed, all 60 polling requests were sent, and the
    process exits with code 0.  The attempts are used up whenever the
    credential is there and its header can be sent. *)
Theorem timeout_is_inconclusive environ respond fuel h :
  Py.truthy_str (GITHUB_TOKEN environ) = true →
  Header.sendable (HEADERS environ) = true →
  (Z.to_nat max_checks ≤ fuel)%nat →
  (∀ e r, e ∈ (main environ respond fuel h).2 →
          observed e = Some r → status r ≠ "completed") →
  (main environ respond fuel h).1 = Returned 0 ∧
  Print timeout_line ∈ (main environ respond fuel h).2 ∧
  count is_poll (main environ respond fuel h).2 = Z.to_nat max_checks.
Proof.
  intros Htok Hsend Hfuel. rewrite (main_run environ respond Hsend) by done.
  destruct (resolve_and_trigger_cases environ respond Hsend (h ++ banner))
    as (pre & Hpre & Hnpoll & _).
  rewrite Hpre. cbn [fst snd]. rewrite monitor_latest_run_run. cbn zeta. cbn [fst snd].
  destruct (monitor_loop _ _ _ _ _ _) as [result out] eqn:Hloop. cbn [fst snd].
  intros Hnone.
  destruct (monitor_loop_timeout _ _ Hsend _ _ _ _ _ _ ltac:(by rewrite Z.sub_0_r) Hloop)
    as (-> & Hin & Hp & _).
  { intros e r He. apply Hnone. rewrite !elem_of_app, elem_of_cons. tauto. }
  rewrite Z.sub_0_r in Hp.
  split; [done|]. split.
  { rewrite !elem_of_app, elem_of_cons. tauto. }
  rewrite !count_app, count_cons, Hp, (count_none _ pre Hnpoll). done.
Qed.

Lemma timeout_is_inconclusive_witness :
  (main Scenario.with_token (Scenario.always 200 [] [Scenario.in_progress]) 60 []).1
    = Returned 0 ∧
  Print timeout_line ∈
    (main Scenario.with_token (Scenario.always 200 [] [Scenario.in_progress]) 60 []).2 ∧
  count is_poll
    (main Scenario.with_token (Scenario.always 200 [] [Scenario.in_progress]) 60 []).2
    = Z.to_nat max_checks.
Proof.
  apply (timeout_is_inconclusive Scenario.with_token
           (Scenario.always 200 [] [Scenario.in_progress]) 60 []).
  - reflexivity.
  - reflexivity.
  - unfold max_checks. lia.
  - apply no_completed_run_spec. vm_compute. reflexivity.
Defined.

(** [C8] In every polling iteration that sees a run, the status line is
    printed if and only if the status of that run differs from the status
    seen last: in the output of [monitor_latest_run], the event that follows
    such a polling request is the line for the status exactly when the
    events before the request leave another status, or none, as the last one
    seen; and when the status is unchanged the request is followed by the
    sleep directly, so nothing is printed for that run. *)
Theorem status_update_iff_changed environ respond fuel h before e after latest :
  (monitor_latest_run environ respond fuel h).2 = before ++ e :: after →
  observed e = Some latest →
  (head after = Some (Print ("Status: " +:+ status latest))
     ↔ last_status before ≠ Some (status latest)) ∧
  (last_status before = Some (status latest) → head after = Some (Sleep 5)).
Proof.
  destruct (Header.sendable (HEADERS environ)) eqn:Hsend.
  2:{ rewrite (monitor_latest_run_raises environ respond Hsend). cbn [snd].
      intros Hout Hobs. exfalso.
      destruct before as [|x [|y before]]; [|done..]. by injection Hout as <- _. }
  rewrite monitor_latest_run_run. cbn zeta. cbn [snd]. intros Hout Hobs.
  destruct before as [|x before]; [by injection Hout as <- _|].
  injection Hout as <- Hout.
  change (last_status (Print monitoring_line :: before))
    with (last_status_from None before).
  by eapply (monitor_loop_status_lines environ respond Hsend).
Qed.

Lemma status_update_iff_changed_witness :
  ((head (drop 2 Scenario.stuck_trace) = Some (Print "Status: in_progress")
      ↔ last_status (take 1 Scenario.stuck_trace) ≠ Some "in_progress") ∧
   (last_status (take 1 Scenario.stuck_trace) = Some "in_progress" →
    head (drop 2 Scenario.stuck_trace) = Some (Sleep 5))) ∧
  ((head (drop 5 Scenario.stuck_trace) = Some (Print "Status: in_progress")
      ↔ last_status (take 4 Scenario.stuck_trace) ≠ Some "in_progress") ∧
   (last_status (take 4 Scenario.stuck_trace) = Some "in_progress" →
    head (drop 5 Scenario.stuck_trace) = Some (Sleep 5))).
Proof.
  split.
  - apply (status_update_iff_changed Scenario.with_token
             (Scenario.always 200 [] [Scenario.in_progress]) 60 []
             (take 1 Scenario.stuck_trace)
             (Http (runs_request Scenario.with_token)
                   (Response 200 (JsonBody [] [Scenario.in_progress])))
             (drop 2 Scenario.stuck_trace) Scenario.in_progress).
    + vm_compute. reflexivity.
    + reflexivity.
  - apply (status_update_iff_changed Scenario.with_token
             (Scenario.always 200 [] [Scenario.in_progress]) 60 []
             (take 4 Scenario.stuck_trace)
             (Http (runs_request Scenario.with_token)
                   (Response 200 (JsonBody [] [Scenario.in_progress])))
             (drop 5 Scenario.stuck_trace) Scenario.in_progress).
    + vm_compute. reflexivity.
    + reflexivity.
Defined.

(** ** The workflow lookup and the exit code *)

(** [C9], as the specification words it, does not hold: a credential that
    is present but ends with a line feed makes the list-workflows request
    raise, so that [main] never reaches [monitor_latest_run]: no request is
    sent, the monitoring line is never printed and the process ends with
    status 1, although the remote shows a successful run. *)
Lemma line_feed_credential_stops_before_monitoring :
  Py.truthy_str (GITHUB_TOKEN Remote.line_feed_token) = true ∧
  main Remote.line_feed_token
    (Scenario.always 200 Scenario.two_workflows [Scenario.succeeded]) 60 []
    = (Raised InvalidHeader, banner ++ [Print checking_line]) ∧
  exit_status
    (main Remote.line_feed_token
       (Scenario.always 200 Scenario.two_workflows [Scenario.succeeded]) 60 []).1
    = Some 1 ∧
  (Print monitoring_line ∉
     (main Remote.line_feed_token
        (Scenario.always 200 Scenario.two_workflows [Scenario.succeeded]) 60 []).2) ∧
  count is_request
    (main Remote.line_feed_token
       (Scenario.always 200 Scenario.two_workflows [Scenario.succeeded]) 60 []).2
    = 0%nat.
Proof.
  assert (Hrun : main Remote.line_feed_token
    (Scenario.always 200 Scenario.two_workflows [Scenario.succeeded]) 60 []
    = (Raised InvalidHeader, banner ++ [Print checking_line])) by by vm_compute.
  rewrite Hrun. split; [done|]. split; [done|]. split; [done|]. split; [|done].
  cbn [snd]. intros Hin. apply list_elem_of_In in Hin. vm_compute in Hin.
  intuition discriminate.
Qed.

(** [C9], amended: with a credential whose header can be sent (no carriage
    return or line feed, characters of Latin-1 only), the outcome of the
    workflow lookup and of the dispatch request never decides the exit
    code: whether the id is found or not and whether the trigger succeeds
    or fails, [main] goes on to [monitor_latest_run], and the exit code is a
    function of the result of the monitoring alone. *)
Theorem exit_code_from_monitoring_only environ respond fuel h :
  Py.truthy_str (GITHUB_TOKEN environ) = true →
  Header.sendable (HEADERS environ) = true →
  (Z.to_nat max_checks ≤ fuel)%nat →
  ∃ lookup result out,
    resolve_and_trigger environ respond (h ++ banner) = (Returned (), lookup) ∧
    monitor_latest_run environ respond fuel (h ++ banner ++ lookup)
      = (Returned result, out) ∧
    main environ respond fuel h =
      (Returned (exit_code_of result), banner ++ lookup ++ out ++ report_lines result).
Proof.
  intros Htok Hsend Hfuel. rewrite (main_run environ respond Hsend) by done. cbn zeta.
  destruct (resolve_and_trigger_cases environ respond Hsend (h ++ banner))
    as (lookup & Hlookup & _).
  rewrite Hlookup. cbn [snd].
  destruct (monitor_loop_bounded environ respond Hsend fuel None 0
              ((h ++ banner ++ lookup) ++ [Print monitoring_line]))
    as (result & out & Hloop & _); [by rewrite Z.sub_0_r|].
  exists lookup, result, (Print monitoring_line :: out).
  rewrite monitor_latest_run_run. cbn zeta. rewrite Hloop. cbn [fst snd].
  split; [done|]. split; [done|].
  cbn [fmap outcome_fmap returned from_option]. by rewrite <- app_assoc.
Qed.

Lemma exit_code_from_monitoring_only_witness :
  ∃ lookup result out,
    resolve_and_trigger Scenario.with_token
      (Scenario.always 200 Scenario.two_workflows [Scenario.no_conclusion])
      ([] ++ banner) = (Returned (), lookup) ∧
    monitor_latest_run Scenario.with_token
      (Scenario.always 200 Scenario.two_workflows [Scenario.no_conclusion])
      60 ([] ++ banner ++ lookup) = (Returned result, out) ∧
    main Scenario.with_token
      (Scenario.always 200 Scenario.two_workflows [Scenario.no_conclusion]) 60 [] =
      (Returned (exit_code_of result), banner ++ lookup ++ out ++ report_lines result).
Proof.
  apply (exit_code_from_monitoring_only Scenario.with_token
           (Scenario.always 200 Scenario.two_workflows [Scenario.no_conclusion]) 60 []).
  - reflexivity.
  - reflexivity.
  - unfold max_checks. lia.
Defined.

(** * Further properties of the script *)

(** ** What the process sends, and when *)

(** [X1] With a credential whose header can be sent, [main] sends the
    dispatch request exactly when the lookup returned an id that is not
    zero, and it sends it for that id; a workflow whose id is 0 counts as
    not found: no dispatch is sent and the not-found line is printed. *)
Theorem dispatch_iff_workflow_found environ respond fuel h :
  Py.truthy_str (GITHUB_TOKEN environ) = true →
  Header.sendable (HEADERS environ) = true →
  count is_dispatch (main environ respond fuel h).2 =
    (if Py.truthy_int (found_workflow environ respond h) then 1 else 0)%nat ∧
  (∀ e, e ∈ (main environ respond fuel h).2 → is_dispatch e = true →
        ∃ resp, e = Http (dispatch_request environ (found_workflow environ respond h)) resp) ∧
  (found_workflow environ respond h = Some 0 →
   count is_dispatch (main environ respond fuel h).2 = 0%nat ∧
   Print not_found_line ∈ (main environ respond fuel h).2) ∧
  (get_workflow_id environ respond "build.yml" (h ++ banner ++ [Print checking_line])).1
    = Returned (found_workflow environ respond h).
Proof.
  intros Htok Hsend.
  assert (Hid :
    (get_workflow_id environ respond "build.yml" (h ++ banner ++ [Print checking_line])).1
    = Returned (found_workflow environ respond h))
    by by rewrite (get_workflow_id_run environ respond Hsend).

  destruct (main_trace environ respond Hsend fuel h Htok) as (dresp & h' & -> & _).
  pose proof (monitor_latest_run_events environ respond Hsend fuel h') as Hmon.
  pose proof (report_lines_prints
                (returned (monitor_latest_run environ respond fuel h').1)) as Hpost.
  assert (Hcount : ∀ tail,
    count is_dispatch
      (banner ++
       (Print checking_line
          :: Http (workflows_request environ)
               (respond (h ++ banner ++ [Print checking_line]) (workflows_request environ))
          :: tail) ++
       (monitor_latest_run environ respond fuel h').2 ++
       from_option report_lines [] (returned (monitor_latest_run environ respond fuel h').1))
    = count is_dispatch tail).
  { intros tail. rewrite !count_app, !count_cons.
    rewrite (prints_count _ banner), (monitoring_no_dispatch environ _ Hmon),
      (prints_count _ _ (λ _, eq_refl) Hpost); [|done|apply banner_prints].
    cbn. lia. }
  split; [|split; [|split; [|exact Hid]]].
  - rewrite Hcount. unfold lookup_tail.
    destruct (Py.truthy_int _); [|done]. by case_bool_decide.
  - intros e He Hd. rewrite !elem_of_app, !elem_of_cons in He.
    destruct He as [He|[[->|[->|He]]|[He|He]]]; [| done | done | | |].
    + eapply Forall_forall in He; [|apply banner_prints]. by destruct He as [? ->].
    + unfold lookup_tail in He. destruct (Py.truthy_int _).
      * revert He. case_bool_decide; cbn [app]; rewrite !elem_of_cons, elem_of_nil;
          intros [->|[->|[->|He]]]; try done; [by eexists| |by eexists|];
          destruct He as [->|He]; try done; by destruct He as [->|[]].
      * apply list_elem_of_singleton in He as ->. done.
    + eapply Forall_forall in He; [|exact Hmon].
      destruct e as [| |req resp]; [done..|]. cbn in He. by subst req.
    + eapply Forall_forall in He; [|exact Hpost]. by destruct He as [? ->].
  - intros Hzero. rewrite Hcount. unfold lookup_tail. rewrite Hzero.
    split; [done|]. apply elem_of_app. right. apply elem_of_app. left.
    do 2 apply list_elem_of_further. apply list_elem_of_here.
Qed.

Lemma dispatch_iff_workflow_found_witness :
  count is_dispatch
    (main Scenario.with_token
       (Remote.fixed Remote.zero_id_workflow 204 [Scenario.succeeded]) 60 []).2 = 0%nat ∧
  count is_dispatch
    (main Scenario.with_token
       (Remote.fixed Scenario.two_workflows 204 [Scenario.succeeded]) 60 []).2 = 1%nat.
Proof.
  split.
  - apply (dispatch_iff_workflow_found Scenario.with_token
             (Remote.fixed Remote.zero_id_workflow 204 [Scenario.succeeded]) 60 []).
    + reflexivity.
    + reflexivity.
    + reflexivity.
  - apply (dispatch_iff_workflow_found Scenario.with_token
             (Remote.fixed Scenario.two_workflows 204 [Scenario.succeeded]) 60 []).
    + reflexivity.
    + reflexivity.
Defined.

(** [X2] The process waits three seconds exactly when a dispatch request was
    answered with status 204: a [Sleep 3] is in the trace of [main] if and
    only if a dispatch with such a response is. *)
Theorem trigger_wait_iff_204 environ respond fuel h :
  Sleep 3 ∈ (main environ respond fuel h).2 ↔
  ∃ req resp, Http req resp ∈ (main environ respond fuel h).2 ∧
              is_dispatch (Http req resp) = true ∧ status_code resp = 204.
Proof.
  destruct (Header.sendable (HEADERS environ)) eqn:Hsend.
  2:{ split.
      - intros Hin. by destruct (main_only_prints environ respond fuel h Hsend _ Hin).
      - intros (req & resp & Hin & _).
        by destruct (main_only_prints environ respond fuel h Hsend _ Hin). }
  destruct (Py.truthy_str (GITHUB_TOKEN environ)) eqn:Htok.
  2:{ rewrite main_without_credential by done. cbn [snd]. split.
      - by intros [=]%list_elem_of_singleton.
      - by intros (req & resp & [=]%list_elem_of_singleton & _). }
  destruct (main_trace environ respond Hsend fuel h Htok) as (dresp & h' & -> & _).
  pose proof (monitor_latest_run_events environ respond Hsend fuel h') as Hmon.
  pose proof (report_lines_prints
                (returned (monitor_latest_run environ respond fuel h').1)) as Hpost.
  assert (Hparts : ∀ e, (∀ line, e ≠ Print line) →
    e ≠ Http (workflows_request environ)
          (respond (h ++ banner ++ [Print checking_line]) (workflows_request environ)) →
    ¬ monitoring_event environ e →
    e ∈ banner ++
        (Print checking_line
           :: Http (workflows_request environ)
                (respond (h ++ banner ++ [Print checking_line])
                   (workflows_request environ))
           :: lookup_tail environ (found_workflow environ respond h) dresp) ++
        (monitor_latest_run environ respond fuel h').2 ++
        from_option report_lines [] (returned (monitor_latest_run environ respond fuel h').1)
    ↔ e ∈ lookup_tail environ (found_workflow environ respond h) dresp).
  { intros e Hnp Hnw Hnm. rewrite !elem_of_app, !elem_of_cons. split; [|tauto].
    intros [He|[[->|[->|He]]|[He|He]]]; [| | |done| |].
    - eapply Forall_forall in He; [|apply banner_prints].
      destruct He as [line ->]. by destruct (Hnp line).
    - by destruct (Hnp checking_line).
    - done.
    - eapply Forall_forall in He; [|exact Hmon]. done.
    - eapply Forall_forall in He; [|exact Hpost].
      destruct He as [line ->]. by destruct (Hnp line). }
  rewrite Hparts; [|done|done|by cbn].
  split.
  - intros Hsleep. exists (dispatch_request environ (found_workflow environ respond h)), dresp.
    rewrite Hparts; [|done|done|by cbn].
    revert Hsleep. unfold lookup_tail. destruct (Py.truthy_int _).
    + case_bool_decide as H204; cbn [app]; rewrite !elem_of_cons, !elem_of_nil.
      * intros _. split; [tauto|]. done.
      * intros [?|[?|[?|[?|[]]]]]; done.
    + by intros [=]%list_elem_of_singleton.
  - intros (req & resp & Hin & Hd & H204).
    rewrite Hparts in Hin; [|done| |].
    + revert Hin. unfold lookup_tail. destruct (Py.truthy_int _).
      * case_bool_decide as H204'; cbn [app]; rewrite !elem_of_cons, !elem_of_nil.
        -- tauto.
        -- intros [?|[?|[[= -> ->]|[?|[]]]]]; done.
      * by intros [=]%list_elem_of_singleton.
    + intros [= -> _]. done.
    + cbn. intros ->. done.
Qed.

(** [X3] Whatever the remote answers and whatever the credential, a run of
    [main] sends at most 62 requests and sleeps at most 303 seconds in all;
    [monitor_latest_run] alone sleeps at most 300 seconds, the five minutes
    its comment announces. *)
Theorem request_and_sleep_budget environ respond fuel h :
  (count is_request (main environ respond fuel h).2 ≤ 62)%nat ∧
  0 ≤ sleep_seconds (main environ respond fuel h).2 ≤ 303 ∧
  0 ≤ sleep_seconds (monitor_latest_run environ respond fuel h).2 ≤ 5 * max_checks ∧
  5 * max_checks = 300.
Proof.
  assert (Hmon : ∀ h',
    (count is_request (monitor_latest_run environ respond fuel h').2 ≤ 60)%nat ∧
    0 ≤ sleep_seconds (monitor_latest_run environ respond fuel h').2 ≤ 300).
  { intros h'. destruct (Header.sendable (HEADERS environ)) eqn:Hsend.
    2:{ rewrite (monitor_latest_run_raises environ respond Hsend). cbn. lia. }
    rewrite monitor_latest_run_run. cbn zeta. cbn [snd].
    destruct (monitor_loop_budget environ respond Hsend fuel None 0
                (h' ++ [Print monitoring_line])) as [Hr Hs].
    rewrite count_cons. cbn [is_request].
    change (sleep_seconds (Print monitoring_line :: ?l)) with (sleep_seconds l).
    unfold max_checks in *. lia. }
  assert (Hquiet : Header.sendable (HEADERS environ) = false →
    count is_request (main environ respond fuel h).2 = 0%nat ∧
    sleep_seconds (main environ respond fuel h).2 = 0).
  { intros Hbad.
    assert (Hp : Forall (λ e, ∃ line, e = Print line) (main environ respond fuel h).2).
    { apply Forall_forall. apply (main_only_prints environ respond fuel h Hbad). }
    split; [by apply prints_count|].
    apply sleep_seconds_quiet. eapply Forall_impl; [exact Hp|]. by intros e [line ->]. }
  split; [|split; [|split; [|done]]]; [| |apply Hmon].
  - destruct (Header.sendable (HEADERS environ)) eqn:Hsend.
    2:{ destruct (Hquiet eq_refl) as [-> _]. lia. }
    destruct (Py.truthy_str (GITHUB_TOKEN environ)) eqn:Htok.
    2:{ rewrite main_without_credential by done. cbn. lia. }
    destruct (main_trace environ respond Hsend fuel h Htok) as (dresp & h' & -> & _).
    destruct (Hmon h') as [Hr _].
    rewrite !count_app, !count_cons, (prints_count _ banner),
      (prints_count _ _ (λ _, eq_refl) (report_lines_prints _));
      [|done|apply banner_prints].
    cbn [is_request]. unfold lookup_tail.
    destruct (Py.truthy_int _); [case_bool_decide|]; cbn; lia.
  - destruct (Header.sendable (HEADERS environ)) eqn:Hsend.
    2:{ destruct (Hquiet eq_refl) as [_ ->]. lia. }
    destruct (Py.truthy_str (GITHUB_TOKEN environ)) eqn:Htok.
    2:{ rewrite main_without_credential by done. cbn. lia. }
    destruct (main_trace environ respond Hsend fuel h Htok) as (dresp & h' & -> & _).
    destruct (Hmon h') as [_ Hs].
    rewrite !sleep_seconds_app.
    rewrite (sleep_seconds_quiet banner), (sleep_seconds_quiet (from_option _ _ _)).
    + change (sleep_seconds (Print ?a :: Http ?b ?c :: ?l)) with (sleep_seconds l).
      unfold lookup_tail. destruct (Py.truthy_int _); [case_bool_decide|]; cbn; lia.
    + eapply Forall_impl; [apply report_lines_prints|]. by intros e [line ->].
    + eapply Forall_impl; [apply banner_prints|]. by intros e [line ->].
Qed.

(** [X4] Every request the process sends goes to the actions API of the
    hard-coded repository and carries the bearer token read from
    GITHUB_PAT, together with the two other fixed headers. *)
Theorem every_request_authenticated environ respond fuel h token req resp :
  environ !! "GITHUB_PAT" = Some token →
  Http req resp ∈ (main environ respond fuel h).2 →
  headers_of req =
    [("Authorization", "Bearer " +:+ token);
     ("Accept", "application/vnd.github+json");
     ("X-GitHub-Api-Version", "2022-11-28")] ∧
  ∃ path, url_of req = actions_api +:+ path.
Proof.
  intros Henv Hin.
  assert (Hheaders : HEADERS environ =
    [("Authorization", "Bearer " +:+ token);
     ("Accept", "application/vnd.github+json");
     ("X-GitHub-Api-Version", "2022-11-28")]).
  { unfold HEADERS, GITHUB_TOKEN. by rewrite Henv. }
  rewrite <- Hheaders.
  destruct (Header.sendable (HEADERS environ)) eqn:Hsend.
  2:{ by destruct (main_only_prints environ respond fuel h Hsend _ Hin). }
  destruct (Py.truthy_str (GITHUB_TOKEN environ)) eqn:Htok.
  2:{ rewrite main_without_credential in Hin by done.
      by apply list_elem_of_singleton in Hin. }
  destruct (main_trace environ respond Hsend fuel h Htok) as (dresp & h' & Htrace & _).
  rewrite Htrace in Hin. clear Htrace.
  rewrite !elem_of_app, !elem_of_cons in Hin.
  destruct Hin as [Hin|[[?|[[= -> _]|Hin]]|[Hin|Hin]]]; [|done| | | |].
  - eapply Forall_forall in Hin; [|apply banner_prints]. by destruct Hin.
  - split; [done|]. by exists "workflows".
  - unfold lookup_tail in Hin. destruct (Py.truthy_int _).
    + assert (req = dispatch_request environ (found_workflow environ respond h)) as ->.
      { revert Hin. case_bool_decide; cbn [app]; rewrite !elem_of_cons, !elem_of_nil;
          intros [?|[?|[[= -> _]|[?|Hx]]]]; try done.
        by destruct Hx. }
      split; [done|].
      by exists ("workflows/" +:+
                 Py.str_of_opt_int (found_workflow environ respond h) +:+ "/dispatches").
    + by apply list_elem_of_singleton in Hin.
  - eapply Forall_forall in Hin; [|by apply monitor_latest_run_events].
    cbn in Hin. subst req. split; [done|]. by exists "runs".
  - eapply Forall_forall in Hin; [|apply report_lines_prints]. by destruct Hin.
Qed.

Lemma every_request_authenticated_witness :
  headers_of (dispatch_request Scenario.with_token (Some 7)) =
    [("Authorization", "Bearer ghp_example");
     ("Accept", "application/vnd.github+json");
     ("X-GitHub-Api-Version", "2022-11-28")] ∧
  ∃ path, url_of (dispatch_request Scenario.with_token (Some 7)) = actions_api +:+ path.
Proof.
  apply (every_request_authenticated Scenario.with_token
           (Remote.fixed Scenario.two_workflows 204 [Scenario.succeeded]) 60 []
           "ghp_example" (dispatch_request Scenario.with_token (Some 7))
           (Response 204 (JsonBody [] []))).
  - reflexivity.
  - vm_compute. repeat first [apply list_elem_of_here | apply list_elem_of_further].
Defined.

(** ** The exit code, in full *)

(** [X5] With fuel for the whole loop, the process ends with status 0 or 1,
    and with 1 exactly in three cases: the credential is missing or empty;
    the credential makes a header that cannot be sent, so that the first
    request raises; or a polling request showed a completed run whose
    conclusion is not 'success'.  In particular a timeout and any response
    with a failure status end with 0. *)
Theorem exit_code_characterised environ respond fuel h :
  (Z.to_nat max_checks ≤ fuel)%nat →
  ∃ code,
    exit_status (main environ respond fuel h).1 = Some code ∧
    (code = 0 ∨ code = 1) ∧
    (code = 1 ↔
     Py.truthy_str (GITHUB_TOKEN environ) = false ∨
     Header.sendable (HEADERS environ) = false ∨
     ∃ e r, e ∈ (main environ respond fuel h).2 ∧ observed e = Some r ∧
            status r = "completed" ∧ conclusion r ≠ Some "success").
Proof.
  intros Hfuel.
  destruct (Py.truthy_str (GITHUB_TOKEN environ)) eqn:Htok.
  2:{ rewrite main_without_credential by done. exists 1. cbn [fst exit_status]. tauto. }
  destruct (Header.sendable (HEADERS environ)) eqn:Hsend.
  2:{ rewrite (main_raises environ respond Hsend) by done.
      exists 1. cbn [fst exit_status]. tauto. }
  destruct (main_trace environ respond Hsend fuel h Htok) as (dresp & h' & -> & ->).
  rewrite monitor_latest_run_run. cbn zeta. cbn [fst snd].
  destruct (monitor_loop_bounded environ respond Hsend fuel None 0
              (h' ++ [Print monitoring_line]))
    as (result & out & Hloop & _); [by rewrite Z.sub_0_r|].
  rewrite Hloop. cbn [fst snd fmap outcome_fmap exit_status returned].
  exists (exit_code_of result). split; [done|].
  split; [destruct result as [[|]|]; cbn; tauto|].
  split.
  - intros Hone. right. right. destruct result as [[|]|]; [done| |done].
    destruct (monitor_loop_returned _ _ Hsend _ _ _ _ _ _ Hloop)
      as (e & r & He & Hobs & Hst & Hb).
    exists e, r. split; [|split; [done|split; [done|]]].
    + rewrite !elem_of_app, !elem_of_cons. tauto.
    + symmetry in Hb. by apply bool_decide_eq_false in Hb.
  - intros [?|[?|(e & r & He & Hobs & Hst & Hc)]]; [done..|].
    assert (Hin : e ∈ out).
    { rewrite !elem_of_app, !elem_of_cons in He.
      destruct He as [He|[[->|[->|He]]|[[->|He]|He]]]; [|done|done| |done|done|].
      - eapply Forall_forall in He; [|apply banner_prints].
        destruct He as [? ->]. done.
      - unfold lookup_tail in He. destruct (Py.truthy_int _).
        + revert He. case_bool_decide; cbn [app]; rewrite !elem_of_cons, !elem_of_nil;
            intros [->|[->|[->|[->|Hx]]]]; try done; by destruct Hx as [->|[]].
        + by apply list_elem_of_singleton in He as ->.
      - eapply Forall_forall in He; [|apply report_lines_prints].
        destruct He as [? ->]. done. }
    pose proof (monitor_loop_completed _ _ Hsend _ _ _ _ _ _ Hloop e r Hin Hobs Hst) as Hres.
    injection Hres as ->. by rewrite bool_decide_eq_false_2.
Qed.

Lemma exit_code_characterised_witness :
  (∃ code,
     exit_status
       (main Scenario.with_token (Remote.warming_up Remote.failed) 60 []).1 = Some code ∧
     (code = 0 ∨ code = 1) ∧
     (code = 1 ↔
      Py.truthy_str (GITHUB_TOKEN Scenario.with_token) = false ∨
      Header.sendable (HEADERS Scenario.with_token) = false ∨
      ∃ e r, e ∈ (main Scenario.with_token (Remote.warming_up Remote.failed) 60 []).2 ∧
             observed e = Some r ∧ status r = "completed" ∧
             conclusion r ≠ Some "success")) ∧
  (∃ code,
     exit_status
       (main Remote.line_feed_token (Remote.warming_up Scenario.succeeded) 60 []).1
       = Some code ∧
     (code = 0 ∨ code = 1) ∧
     (code = 1 ↔
      Py.truthy_str (GITHUB_TOKEN Remote.line_feed_token) = false ∨
      Header.sendable (HEADERS Remote.line_feed_token) = false ∨
      ∃ e r, e ∈ (main Remote.line_feed_token
                    (Remote.warming_up Scenario.succeeded) 60 []).2 ∧
             observed e = Some r ∧ status r = "completed" ∧
             conclusion r ≠ Some "success")).
Proof.
  split.
  - apply (exit_code_characterised Scenario.with_token
             (Remote.warming_up Remote.failed) 60 []).
    unfold max_checks. lia.
  - apply (exit_code_characterised Remote.line_feed_token
             (Remote.warming_up Scenario.succeeded) 60 []).
    unfold max_checks. lia.
Defined.

(** [X11] A credential that is there but cannot be sent as a header value,
    because it contains a carriage return, a line feed or a character
    outside Latin-1, stops the process at its first request: the lookup
    raises before anything is sent, the monitoring is never started, and
    the process ends with status 1. *)
Theorem unsendable_credential_raises environ respond fuel h token :
  environ !! "GITHUB_PAT" = Some token →
  token ≠ "" →
  Header.value_ok token = false →
  main environ respond fuel h = (Raised InvalidHeader, banner ++ [Print checking_line]) ∧
  exit_status (main environ respond fuel h).1 = Some 1 ∧
  count is_request (main environ respond fuel h).2 = 0%nat ∧
  (Print monitoring_line ∉ (main environ respond fuel h).2).
Proof.
  intros Henv Hne Hbad.
  assert (Htok : Py.truthy_str (GITHUB_TOKEN environ) = true).
  { unfold GITHUB_TOKEN. rewrite Henv. cbn [Py.truthy_str].
    by destruct (String.eqb_spec token ""). }
  assert (Hsend : Header.sendable (HEADERS environ) = false).
  { rewrite sendable_headers. unfold GITHUB_TOKEN. by rewrite Henv. }
  rewrite (main_raises environ respond Hsend) by done.
  split; [done|]. split; [done|]. split; [done|].
  cbn [snd]. intros Hin. apply list_elem_of_In in Hin. vm_compute in Hin.
  intuition discriminate.
Qed.

Lemma unsendable_credential_raises_witness :
  main Remote.line_feed_token
    (Scenario.always 200 Scenario.two_workflows [Scenario.succeeded]) 60 []
    = (Raised InvalidHeader, banner ++ [Print checking_line]) ∧
  exit_status
    (main Remote.line_feed_token
       (Scenario.always 200 Scenario.two_workflows [Scenario.succeeded]) 60 []).1
    = Some 1 ∧
  count is_request
    (main Remote.line_feed_token
       (Scenario.always 200 Scenario.two_workflows [Scenario.succeeded]) 60 []).2
    = 0%nat ∧
  (Print monitoring_line ∉
     (main Remote.line_feed_token
        (Scenario.always 200 Scenario.two_workflows [Scenario.succeeded]) 60 []).2).
Proof.
  apply (unsendable_credential_raises Remote.line_feed_token
           (Scenario.always 200 Scenario.two_workflows [Scenario.succeeded]) 60 []
           ("ghp_example" +:+ Py.nl)).
  - reflexivity.
  - by vm_compute.
  - reflexivity.
Defined.

(** ** More on the polling loop *)

(** [X6] A completed run ends the monitoring at once: after the polling
    request that shows it, [monitor_latest_run] sends no further request and
    does not sleep any more. *)
Theorem nothing_after_completed_run environ respond fuel h before e after r :
  (monitor_latest_run environ respond fuel h).2 = before ++ e :: after →
  observed e = Some r →
  status r = "completed" →
  count is_request after = 0%nat ∧ sleep_seconds after = 0.
Proof.
  intros Hout Hobs Hst.
  destruct (Header.sendable (HEADERS environ)) eqn:Hsend.
  2:{ pose proof (monitor_trace_no_request environ respond fuel h before e after
                    Hsend Hout).
      pose proof (observed_is_request e r Hobs). congruence. }
  destruct (monitor_latest_run_at environ respond Hsend fuel h before e after Hout
              (observed_is_request e r Hobs))
    as (c & h' & ctl & rest & after' & Hit & -> & -> & Hrest & Hret).
  destruct (monitor_iteration_cases environ respond Hsend (last_status before) c h')
    as (ctl' & rest' & Hit' & _ & Hctl).
  unfold runs_request in *. rewrite Hit in Hit'. injection Hit' as <- <-.
  rewrite observed_poll in Hobs. rewrite Hobs in Hctl.
  rewrite bool_decide_eq_true_2 in Hctl by done. destruct Hctl as [-> Hsleep].
  rewrite (Hret _ eq_refl), app_nil_r.
  split; [by apply count_none|].
  by apply sleep_seconds_quiet, count_zero_forall.
Qed.

Lemma nothing_after_completed_run_witness :
  count is_request
    (drop 8 (monitor_latest_run Scenario.with_token
               (Remote.warming_up Remote.failed) 60 []).2) = 0%nat ∧
  sleep_seconds
    (drop 8 (monitor_latest_run Scenario.with_token
               (Remote.warming_up Remote.failed) 60 []).2) = 0.
Proof.
  apply (nothing_after_completed_run Scenario.with_token
           (Remote.warming_up Remote.failed) 60 []
           (take 7 (monitor_latest_run Scenario.with_token
                      (Remote.warming_up Remote.failed) 60 []).2)
           (Http (runs_request Scenario.with_token)
                 (Response 200 (JsonBody [] [Remote.failed])))
           (drop 8 (monitor_latest_run Scenario.with_token
                      (Remote.warming_up Remote.failed) 60 []).2)
           Remote.failed).
  - vm_compute. reflexivity.
  - reflexivity.
  - reflexivity.
Defined.

(** [X7] A polling request that shows no run, because the status is not 200
    or because the list of runs is empty, is followed by the line
    'No workflow runs found' and a sleep of five seconds, and the status
    remembered is kept over it: when the next polling request shows a run,
    the status line is printed exactly when the status differs from the one
    seen last before the empty poll. *)
Theorem empty_poll_prints_and_sleeps environ respond fuel h before e after :
  (monitor_latest_run environ respond fuel h).2 = before ++ e :: after →
  is_poll e = true →
  observed e = None →
  ∃ after',
    after = Print no_runs_line :: Sleep 5 :: after' ∧
    ∀ e' after'' latest,
      after' = e' :: after'' →
      observed e' = Some latest →
      (head after'' = Some (Print ("Status: " +:+ status latest))
         ↔ last_status before ≠ Some (status latest)).
Proof.
  intros Hout Hpoll Hobs.
  destruct (Header.sendable (HEADERS environ)) eqn:Hsend.
  2:{ pose proof (monitor_trace_no_request environ respond fuel h before e after
                    Hsend Hout).
      pose proof (is_poll_is_request e Hpoll). congruence. }
  destruct (monitor_latest_run_at environ respond Hsend fuel h before e after Hout
              (is_poll_is_request e Hpoll))
    as (c & h' & ctl & rest & after' & Hit & He & -> & Hrest & Hret).
  assert (rest = [Print no_runs_line; Sleep 5]) as ->.
  { revert Hit. rewrite (monitor_iteration_run environ respond Hsend). cbn zeta.
    rewrite He in Hobs. unfold runs_request in *. rewrite observed_poll in Hobs.
    destruct (runs_of _) as [|latest tl]; [|done].
    by intros [= _ <-]. }
  exists after'. split; [done|].
  intros e' after'' latest -> Hobs'.
  revert Hout. rewrite monitor_latest_run_run. cbn zeta. cbn [snd]. intros Hout.
  destruct before as [|x before]; [by injection Hout as <- _|].
  injection Hout as <- Hout.
  assert (Hout' :
    (monitor_loop environ respond fuel None 0 (h ++ [Print monitoring_line])).2
    = (before ++ [e; Print no_runs_line; Sleep 5]) ++ e' :: after'').
  { rewrite Hout, <- app_assoc. done. }
  destruct (monitor_loop_status_lines environ respond Hsend fuel None 0 _
              ltac:(done) _ _ _ _ Hout' Hobs') as [Hiff _].
  rewrite Hiff.
  change (last_status (Print monitoring_line :: before))
    with (last_status_from None before).
  rewrite last_status_from_app.
  rewrite (last_status_from_quiet _ [e; Print no_runs_line; Sleep 5]); [done|].
  by repeat constructor.
Qed.

Lemma empty_poll_prints_and_sleeps_witness :
  ∃ after',
    drop 2 (monitor_latest_run Scenario.with_token
              (Remote.warming_up Remote.failed) 60 []).2
    = Print no_runs_line :: Sleep 5 :: after' ∧
    ∀ e' after'' latest,
      after' = e' :: after'' →
      observed e' = Some latest →
      (head after'' = Some (Print ("Status: " +:+ status latest))
         ↔ last_status
             (take 1 (monitor_latest_run Scenario.with_token
                        (Remote.warming_up Remote.failed) 60 []).2)
           ≠ Some (status latest)).
Proof.
  apply (empty_poll_prints_and_sleeps Scenario.with_token
           (Remote.warming_up Remote.failed) 60 []
           (take 1 (monitor_latest_run Scenario.with_token
                      (Remote.warming_up Remote.failed) 60 []).2)
           (Http (runs_request Scenario.with_token) (Response 200 (JsonBody [] [])))).
  - vm_compute. reflexivity.
  - reflexivity.
  - reflexivity.
Defined.

(** [X8] When the status of the run seen has changed, the line for the
    conclusion follows the line for the status exactly when the conclusion
    is a string that is not empty: a null, absent or empty conclusion prints
    no conclusion line. *)
Theorem conclusion_line_iff_nonempty environ respond fuel h before e after latest c :
  (monitor_latest_run environ respond fuel h).2 = before ++ e :: after →
  observed e = Some latest →
  last_status before ≠ Some (status latest) →
  after !! 1%nat = Some (Print ("Conclusion: " +:+ c))
    ↔ conclusion latest = Some c ∧ c ≠ "".
Proof.
  intros Hout Hobs Hch.
  destruct (Header.sendable (HEADERS environ)) eqn:Hsend.
  2:{ pose proof (monitor_trace_no_request environ respond fuel h before e after
                    Hsend Hout).
      pose proof (observed_is_request e latest Hobs). congruence. }
  destruct (monitor_latest_run_at environ respond Hsend fuel h before e after Hout
              (observed_is_request e latest Hobs))
    as (cc & h' & ctl & rest & after' & Hit & -> & -> & Hrest & Hret).
  revert Hit. rewrite (monitor_iteration_run environ respond Hsend). cbn zeta.
  unfold runs_request in *. rewrite observed_poll in Hobs.
  destruct (runs_of _) as [|latest' tl]; [done|]. injection Hobs as ->.
  unfold status_lines. rewrite (bool_decide_eq_true_2 (Some _ ≠ _)) by naive_solver.
  destruct (conclusion latest) as [c'|] eqn:Hc; cbn [Py.truthy_str Py.str_of_opt].
  - destruct (String.eqb_spec c' "") as [->|Hne]; cbn [negb].
    + repeat case_bool_decide; intros [= _ <-]; cbn; (split; [by intros [=]|]);
        by intros [[= <-] ?].
    + repeat case_bool_decide; intros [= _ <-]; cbn; (split; [|by intros [[= <-] _]]);
        cbv [String.append]; intros [= <-]; done.
  - repeat case_bool_decide; intros [= _ <-]; cbn; (split; [by intros [=]|]);
      by intros [[=] _].
Qed.

Lemma conclusion_line_iff_nonempty_witness :
  (drop 8 (monitor_latest_run Scenario.with_token
             (Remote.warming_up Remote.failed) 60 []).2 !! 1%nat
     = Some (Print ("Conclusion: " +:+ "failure"))
   ↔ conclusion Remote.failed = Some "failure" ∧ "failure" ≠ "") ∧
  (drop 8 (monitor_latest_run Scenario.with_token
             (Remote.warming_up Remote.blank_conclusion) 60 []).2 !! 1%nat
     = Some (Print ("Conclusion: " +:+ ""))
   ↔ conclusion Remote.blank_conclusion = Some "" ∧ "" ≠ "").
Proof.
  split.
  - apply (conclusion_line_iff_nonempty Scenario.with_token
             (Remote.warming_up Remote.failed) 60 []
             (take 7 (monitor_latest_run Scenario.with_token
                        (Remote.warming_up Remote.failed) 60 []).2)
             (Http (runs_request Scenario.with_token)
                   (Response 200 (JsonBody [] [Remote.failed])))).
    + vm_compute. reflexivity.
    + reflexivity.
    + by vm_compute.
  - apply (conclusion_line_iff_nonempty Scenario.with_token
             (Remote.warming_up Remote.blank_conclusion) 60 []
             (take 7 (monitor_latest_run Scenario.with_token
                        (Remote.warming_up Remote.blank_conclusion) 60 []).2)
             (Http (runs_request Scenario.with_token)
                   (Response 200 (JsonBody [] [Remote.blank_conclusion])))).
    + vm_compute. reflexivity.
    + reflexivity.
    + by vm_compute.
Defined.

(** ** The order of the requests *)

(** [X9] With a credential whose header can be sent, the requests of a run
    come in a fixed order: first the list-workflows request, then the
    dispatch for the id found when that id is not zero, and after that
    polling requests only. *)
Theorem requests_in_order environ respond fuel h :
  Py.truthy_str (GITHUB_TOKEN environ) = true →
  Header.sendable (HEADERS environ) = true →
  ∃ lookup_resp dispatch_resp polls,
    List.filter is_request (main environ respond fuel h).2 =
      Http (workflows_request environ) lookup_resp ::
      (if Py.truthy_int (found_workflow environ respond h)
       then [Http (dispatch_request environ (found_workflow environ respond h))
                  dispatch_resp]
       else []) ++ polls ∧
    Forall (λ e, is_poll e = true) polls.
Proof.
  intros Htok Hsend.
  destruct (main_trace environ respond Hsend fuel h Htok) as (dresp & h' & -> & _).
  pose proof (monitor_latest_run_events environ respond Hsend fuel h') as Hmon.
  assert (Hquiet : ∀ l, Forall (λ e, ∃ line, e = Print line) l →
                        List.filter is_request l = []).
  { induction 1 as [|e l [line ->] _ IH]; [done|]. exact IH. }
  eexists _, dresp, (List.filter is_request (monitor_latest_run environ respond fuel h').2).
  split.
  - rewrite !List.filter_app, (Hquiet banner banner_prints),
      (Hquiet _ (report_lines_prints _)), app_nil_r.
    cbn [app List.filter is_request]. do 2 f_equal.
    unfold lookup_tail. destruct (Py.truthy_int _); [|done]. by case_bool_decide.
  - induction Hmon as [|e l He _ IH]; [constructor|].
    cbn [List.filter]. destruct e as [| |req resp]; cbn [is_request]; [done..|].
    constructor; [|exact IH]. cbn in He. by subst req.
Qed.

Lemma requests_in_order_witness :
  ∃ lookup_resp dispatch_resp polls,
    List.filter is_request
      (main Scenario.with_token
         (Remote.fixed Scenario.two_workflows 500 [Scenario.succeeded]) 60 []).2 =
      Http (workflows_request Scenario.with_token) lookup_resp ::
      (if Py.truthy_int
            (found_workflow Scenario.with_token
               (Remote.fixed Scenario.two_workflows 500 [Scenario.succeeded]) [])
       then [Http (dispatch_request Scenario.with_token
                     (found_workflow Scenario.with_token
                        (Remote.fixed Scenario.two_workflows 500 [Scenario.succeeded]) []))
                  dispatch_resp]
       else []) ++ polls ∧
    Forall (λ e, is_poll e = true) polls.
Proof.
  apply (requests_in_order Scenario.with_token
           (Remote.fixed Scenario.two_workflows 500 [Scenario.succeeded]) 60 []).
  - reflexivity.
  - reflexivity.
Defined.

(** ** The name given to the lookup *)

(** [X10] [get_workflow_id] matches by suffix only.  With a 200 response,
    the empty name matches every path, so the id of the first workflow
    listed is returned; and a name longer than every path listed matches
    none, so no id is returned.  There is a response whenever the headers
    can be sent. *)
Theorem get_workflow_id_name_edges environ respond workflow_name h :
  Header.sendable (HEADERS environ) = true →
  status_code (respond h (workflows_request environ)) = 200 →
  (workflow_name = "" →
   (get_workflow_id environ respond workflow_name h).1 =
     Returned (w_id <$> head (workflows (json (respond h (workflows_request environ)))))) ∧
  (Forall (λ w, (String.length (w_path w) < String.length workflow_name)%nat)
     (workflows (json (respond h (workflows_request environ)))) →
   (get_workflow_id environ respond workflow_name h).1 = Returned None).
Proof.
  intros Hsend Hok. rewrite (get_workflow_id_run environ respond Hsend).
  cbn [fst]. unfold workflow_id_of.
  rewrite bool_decide_eq_true_2 by done. split.
  - intros ->. destruct (workflows _) as [|w ws]; [done|].
    cbn [first_workflow head fmap option_fmap option_map].
    replace (Py.endswith (w_path w) "") with true; [done|].
    symmetry. apply endswith_spec. exists (w_path w).
    induction (w_path w) as [|c s IH]; [done|]. rewrite string_app_cons. by f_equal.
  - intros Hshort. f_equal. apply first_workflow_none.
    eapply Forall_impl; [exact Hshort|]. intros w Hlt. unfold Py.endswith.
    apply andb_false_iff. left. apply Nat.leb_gt. exact Hlt.
Qed.

Lemma get_workflow_id_name_edges_witness :
  (get_workflow_id Scenario.with_token
     (Remote.fixed Scenario.two_workflows 204 []) "" []).1 = Returned (Some 3) ∧
  (get_workflow_id Scenario.with_token
     (Remote.fixed Scenario.two_workflows 204 [])
     "a-very-long-directory/.github/workflows/build.yml" []).1 = Returned None.
Proof.
  split.
  - apply (get_workflow_id_name_edges Scenario.with_token
             (Remote.fixed Scenario.two_workflows 204 []) "" []); reflexivity.
  - apply (get_workflow_id_name_edges Scenario.with_token
             (Remote.fixed Scenario.two_workflows 204 [])
             "a-very-long-directory/.github/workflows/build.yml" []).
    + reflexivity.
    + reflexivity.
    + repeat constructor; vm_compute; lia.
Defined.
